(** * NeptuneCallback: a verified model of [callbacks/neptune_callback.py]

    The callback observes a stable-baselines3 training loop.  Every
    [logs_freq] steps it aggregates the monitor CSV files of the log
    directory, every [evaluate_freq] steps it evaluates the policy, and it
    reports both to Neptune, saving the model whenever the evaluation
    improves on the best mean reward seen so far.

    Modelling choices.
    - Python [int]s are [Z]; [%] is [Z.modulo] and raises
      [ZeroDivisionError] on a zero divisor.
    - In the model of the whole callback Python [float]s and numpy arrays
      of floats are idealised as real numbers ([R]) and lists of them:
      rounding, [nan] and overflow are not modelled there, and [-np.inf] is
      the extra point [NegInf] of [efloat].  Where a property depends on
      rounding, the aggregation loop of [_load_logs] is modelled a second
      time over binary64 values ([Binary64]).
    - A CSV row is the pair of its converted [r] and [l] fields: a file
      whose rows lack a field, or hold a field [float] rejects, is outside
      the model, and so is a log directory path that exists without being
      a directory that can be listed.  A statement that the per-step hook
      returns on a step that aggregates the logs therefore assumes the
      rows the loop accumulates, or that [_load_logs] returns.
    - [neptune.init] returns an object of the Neptune client; the model
      keeps it as the opaque value [returned_by_neptune_init].
    - The file system, the Neptune session, gym, the model and the
      evaluation routine form the [world]; every call that leaves the
      program is recorded in its [trace], and the [world] decides which of
      these calls fail ([faults]).
    - Methods are computations in a state-and-exception monad [M] over the
      pair of the callback object and the world. *)

From Stdlib Require Import List String Ascii Bool ZArith Reals Lra Lia.
From Stdlib Require Import Permutation Sorted DecimalString.
From Stdlib Require Floats Uint63.
Import ListNotations.

(* Decimal float literals stand for the nearest binary64 value, as
   [float("0.3")] does in Python. *)
#[local] Set Warnings "-inexact-float".

Local Open Scope list_scope.
Local Open Scope string_scope.

(** ** Python builtins used by the callback *)

Module Py.

(** The newline character of ["\n"]. *)
Definition nl : string := String (ascii_of_nat 10) EmptyString.

(** [str(n)] for an [int]. *)
Definition str (n : Z) : string := NilZero.string_of_int (Z.to_int n).

Fixpoint str_skipn (n : nat) (s : string) : string :=
  match n, s with
  | O, _ => s
  | S _, EmptyString => EmptyString
  | S n', String _ s' => str_skipn n' s'
  end.

(** [s[-k:]] for a string and [k > 0]: the last [k] characters, or all of
    [s] when it is shorter. *)
Definition str_last (k : nat) (s : string) : string :=
  str_skipn (String.length s - k) s.

(** [l[1:]]. *)
Definition slice_from_1 {A} (l : list A) : list A := skipn 1 l.

(** [l[-k:]] for a list: [-0] is [0], so [k = 0] keeps the whole list;
    otherwise the last [k] elements, or all of [l] when it is shorter. *)
Definition slice_last {A} (k : nat) (l : list A) : list A :=
  match k with
  | O => l
  | S _ => skipn (List.length l - k) l
  end.

(** POSIX [os.path.join] of two components. *)
Definition ends_with_slash (a : string) : bool :=
  String.eqb (str_last 1 a) "/".

Definition starts_with_slash (b : string) : bool :=
  match b with
  | String c _ => Ascii.eqb c "/"%char
  | EmptyString => false
  end.

Definition os_path_join (a b : string) : string :=
  if starts_with_slash b then b
  else if String.eqb a "" || ends_with_slash a then a ++ b
  else a ++ "/" ++ b.

End Py.

(** ** numpy: mean and population standard deviation *)

Module Np.

Local Open Scope R_scope.

Definition sum (a : list R) : R := fold_right Rplus 0 a.

(** [np.mean(a)]: the arithmetic mean. *)
Definition mean (a : list R) : R := sum a / INR (List.length a).

(** [np.std(a)]: [sqrt(mean(abs(a - a.mean())**2))], divisor [N]. *)
Definition std (a : list R) : R :=
  sqrt (mean (map (fun x => Rsqr (Rabs (x - mean a))) a)).

End Np.

(** ** Data model *)

(** A float that may be [-np.inf]. *)
Inductive efloat : Type :=
| NegInf
| Fin (x : R).

(** [a <= b] on [efloat]. *)
Definition efloat_le (a b : efloat) : Prop :=
  match a, b with
  | NegInf, _ => True
  | Fin _, NegInf => False
  | Fin x, Fin y => (x <= y)%R
  end.

(** [m > b] for a float [m] and a possibly infinite [b]. *)
Definition float_gt (m : R) (b : efloat) : bool :=
  match b with
  | NegInf => true
  | Fin x => if Rlt_dec x m then true else false
  end.

(** A data row of a monitor file as [csv.DictReader] yields it, with the
    columns the callback reads already converted by [float(row['r'])] and
    [float(row['l'])]. *)
Record row : Type := { r : R; l : R }.

(** An entry of a directory listing: its name, what [os.path.isfile] says
    of it, and the data rows [list(csv.DictReader(f))] reads from it (the
    header line is consumed by the reader and is not one of them). *)
Record dir_entry : Type := {
  name : string;
  is_file : bool;
  csv_rows : list row
}.

(** Calls that leave the program. *)
Inductive call : Type :=
| neptune_init (project_qualified_name : string)
| neptune_create_experiment (experiment : string)
| neptune_append_tags (tags : list string)
| neptune_log_text (log_name text : string)
| neptune_log_metric (log_name : string) (value : R)
| neptune_log_video (path : string)
| os_mkdir (path : string)
| os_remove (path : string)
| gym_make (id : string)
| evaluate_policy (n_eval_episodes : nat)
    (render deterministic return_episode_rewards : bool)
| video_recorder (video_folder name_prefix : string) (video_length : Z)
| video_env_reset
| model_predict
| video_env_step
| video_env_close
| model_save (path : string).

Inductive exn : Type :=
| TypeError
| ZeroDivisionError
| FileNotFoundError (path : string)
| ExternalError (c : call).

Inductive result (A : Type) : Type :=
| Ok (a : A)
| Raise (e : exn).

Arguments Ok {A} a.
Arguments Raise {A} e.

(** Everything outside the callback object. *)
Record world : Type := {
  fs : string -> option (list dir_entry);
    (** the listing of each existing directory *)
  policy_eval : list R * list R;
    (** the episode rewards and lengths [evaluate_policy] returns *)
  faults : call -> bool;
    (** the calls that raise instead of completing *)
  trace : list call
    (** the completed calls, oldest first *)
}.

(** [w] after the calls [cs] completed. *)
Definition add_trace (cs : list call) (w : world) : world :=
  {| fs := fs w; policy_eval := policy_eval w; faults := faults w;
     trace := (trace w ++ cs)%list |}.

(** [w] with [path] a new, empty directory. *)
Definition make_dir (path : string) (w : world) : world :=
  {| fs := fun p => if String.eqb p path then Some [] else fs w p;
     policy_eval := policy_eval w; faults := faults w;
     trace := trace w |}.

(** What [neptune.init] returns: an object of the Neptune library, known
    here only by the call that produced it. *)
Inductive neptune_project : Type :=
| returned_by_neptune_init (project_qualified_name : string).

(** The attributes of a [NeptuneCallback] object; [model] stands for the
    model through its class name, [n_calls] is the counter the base class
    advances before each [_on_step]. *)
Record NeptuneCallback : Type := {
  model : string;
  logs_freq : Z;
  evaluate_freq : Z;
  log_dir : string;
  best_mean_reward : efloat;
  video_length : Z;
  make_video : bool;
  neptune_account_name : string;
  project_name : string;
  experiment_name : string;
  neptune_logger : option neptune_project;
  model_parameter : list (string * string);
  comment : option string;
  random_seed : option Z;
  environment_name : string;
  n_calls : Z
}.

Definition state : Type := NeptuneCallback * world.

(** ** The monad of methods *)

Definition M (A : Type) : Type := state -> result A * state.

Definition ret {A} (a : A) : M A := fun s => (Ok a, s).

Definition raise {A} (e : exn) : M A := fun s => (Raise e, s).

Definition bind {A B} (m : M A) (k : A -> M B) : M B :=
  fun s =>
    match m s with
    | (Ok a, s') => k a s'
    | (Raise e, s') => (Raise e, s')
    end.

Declare Scope monad_scope.
Delimit Scope monad_scope with monad.
Notation "x <- m ;; k" := (bind m (fun x => k))
  (at level 61, m at next level, right associativity) : monad_scope.
Notation "m ;; k" := (bind m (fun _ => k))
  (at level 61, right associativity) : monad_scope.
Local Open Scope monad_scope.

(** [try: m except: pass]: a bare [except] catches every exception; what
    [m] did before raising stays done. *)
Definition try_except_pass (m : M unit) : M unit :=
  fun s =>
    match m s with
    | (Ok _, s') => (Ok tt, s')
    | (Raise _, s') => (Ok tt, s')
    end.

Definition get_self : M NeptuneCallback := fun s => (Ok (fst s), s).

Definition get_world : M world := fun s => (Ok (snd s), s).

Definition lift {A} (x : result A) : M A := fun s => (x, s).

(** A call that leaves the program: it raises when the world says so and
    is otherwise appended to the trace. *)
Definition do_call (c : call) : M unit :=
  fun s =>
    if faults (snd s) c then (Raise (ExternalError c), s)
    else (Ok tt, (fst s, add_trace [c] (snd s))).

(** [self.best_mean_reward = v] and [self.neptune_logger = v]. *)
Definition with_best (v : efloat) (self : NeptuneCallback) : NeptuneCallback :=
  {| model := model self; logs_freq := logs_freq self;
     evaluate_freq := evaluate_freq self; log_dir := log_dir self;
     best_mean_reward := v;
     video_length := video_length self; make_video := make_video self;
     neptune_account_name := neptune_account_name self;
     project_name := project_name self;
     experiment_name := experiment_name self;
     neptune_logger := neptune_logger self;
     model_parameter := model_parameter self;
     comment := comment self; random_seed := random_seed self;
     environment_name := environment_name self;
     n_calls := n_calls self |}.

Definition with_logger (v : option neptune_project) (self : NeptuneCallback)
  : NeptuneCallback :=
  {| model := model self; logs_freq := logs_freq self;
     evaluate_freq := evaluate_freq self; log_dir := log_dir self;
     best_mean_reward := best_mean_reward self;
     video_length := video_length self; make_video := make_video self;
     neptune_account_name := neptune_account_name self;
     project_name := project_name self;
     experiment_name := experiment_name self;
     neptune_logger := v;
     model_parameter := model_parameter self;
     comment := comment self; random_seed := random_seed self;
     environment_name := environment_name self;
     n_calls := n_calls self |}.

Definition set_best_mean_reward (v : efloat) : M unit :=
  fun s => (Ok tt, (with_best v (fst s), snd s)).

Definition set_neptune_logger (v : option neptune_project) : M unit :=
  fun s => (Ok tt, (with_logger v (fst s), snd s)).

(** [functools.reduce(f, xs)] without an initial value: a [TypeError] on
    an empty sequence. *)
Definition reduce {A} (f : A -> A -> A) (xs : list A) : result A :=
  match xs with
  | [] => Raise TypeError
  | x :: xs' => Ok (fold_left f xs' x)
  end.

(** [a % b] on [int]s. *)
Definition py_mod (a b : Z) : M Z :=
  if Z.eqb b 0 then raise ZeroDivisionError else ret (Z.modulo a b).

Definition os_listdir (path : string) : M (list dir_entry) :=
  w <- get_world ;;
  match fs w path with
  | Some listing => ret listing
  | None => raise (FileNotFoundError path)
  end.

Definition os_path_exists (path : string) : M bool :=
  w <- get_world ;;
  ret (match fs w path with Some _ => true | None => false end).

(** [os.mkdir(path)]: the call, then [path] is an empty directory. *)
Definition mkdir (path : string) : M unit :=
  do_call (os_mkdir path) ;;
  fun s => (Ok tt, (fst s, make_dir path (snd s))).

Fixpoint repeat_m (n : nat) (body : M unit) : M unit :=
  match n with
  | O => ret tt
  | S n' => body ;; repeat_m n' body
  end.

(** ** The methods of [NeptuneCallback] *)

(** [__init__]: the optional arguments are [option]s; [verbose] only goes
    to [BaseCallback.__init__], which also starts [n_calls] at [0]. *)
Definition __init__ (model environment_name neptune_account_name
    project_name experiment_name log_dir : string)
    (random_seed : option Z)
    (model_parameter : option (list (string * string)))
    (comment : option string) (logs_freq evaluate_freq : Z)
    (video_length : Z) (make_video : bool) : NeptuneCallback :=
  {| model := model;
     logs_freq := logs_freq;
     evaluate_freq := evaluate_freq;
     log_dir := log_dir;
     best_mean_reward := NegInf;
     video_length := video_length;
     make_video := make_video;
     neptune_account_name := neptune_account_name;
     project_name := project_name;
     experiment_name := experiment_name;
     neptune_logger := None;
     model_parameter :=
       match model_parameter with
       | None => []
       | Some d => d
       end;
     comment := comment;
     random_seed := random_seed;
     environment_name := environment_name;
     n_calls := 0 |}.

(** The default values of [logs_freq], [evaluate_freq] and
    [video_length]. *)
Definition default_logs_freq : Z := 100.
Definition default_evaluate_freq : Z := 10000.
Definition default_video_length : Z := 1000.

(** The text of the ["Model Params"] upload. *)
Definition model_params_text (d : list (string * string)) : result string :=
  reduce (fun x y => x ++ y ++ Py.nl)
         (map (fun kv => fst kv ++ ": " ++ snd kv) d).

Definition _init_callback : M unit :=
  self <- get_self ;;
  let project := neptune_account_name self ++ "/" ++ project_name self in
  do_call (neptune_init project) ;;
  set_neptune_logger (Some (returned_by_neptune_init project)) ;;
  do_call (neptune_create_experiment (experiment_name self)) ;;
  match random_seed self with
  | None =>
      do_call (neptune_append_tags [model self; environment_name self])
  | Some seed =>
      do_call (neptune_append_tags
                 [model self; environment_name self; "seed: " ++ Py.str seed])
  end ;;
  try_except_pass
    (text <- lift (model_params_text (model_parameter self)) ;;
     do_call (neptune_log_text "Model Params" text)) ;;
  do_call (neptune_log_text "Path to local files" (log_dir self)) ;;
  match comment self with
  | Some c => do_call (neptune_log_text "Comment" c)
  | None => ret tt
  end ;;
  present <- os_path_exists (log_dir self) ;;
  if negb present then mkdir (log_dir self) else ret tt.

(** The test of line 80 on a listed entry. *)
Definition is_csv_file (log_dir : string) (e : dir_entry) : bool :=
  let file_or_dir := Py.os_path_join log_dir (name e) in
  is_file e
  && String.eqb (Py.str_last (String.length ".csv") file_or_dir) ".csv".

(** The inner [for row in rows] loop. *)
Definition append_rows (acc : list R * list R) (rows : list row)
  : list R * list R :=
  fold_left (fun acc row => ((fst acc ++ [r row])%list, (snd acc ++ [l row])%list))
            rows acc.

(** One turn of the loop over the directory; [acc] holds [last_rewards]
    and [last_ep_lengths]. *)
Definition load_entry (log_dir : string) (acc : list R * list R)
    (e : dir_entry) : list R * list R :=
  if is_csv_file log_dir e then
    let rows := Py.slice_from_1 (csv_rows e) in
    if Nat.eqb (List.length rows) 0 then acc
    else
      let lasts := Nat.min 4 (List.length rows) in
      let rows := Py.slice_last lasts rows in
      append_rows acc rows
  else acc.

(** [_load_logs]: [None] is Python's [None] of the bare [return]. *)
Definition _load_logs : M (option (R * R * R * R)) :=
  self <- get_self ;;
  listing <- os_listdir (log_dir self) ;;
  let acc := fold_left (load_entry (log_dir self)) listing ([], []) in
  let last_rewards := fst acc in
  let last_ep_lengths := snd acc in
  if Nat.eqb (List.length last_rewards) 0 then ret None
  else
    ret (Some (Np.mean last_rewards, Np.std last_rewards,
               Np.mean last_ep_lengths, Np.std last_ep_lengths)).

Definition _make_video : M unit :=
  self <- get_self ;;
  do_call (gym_make (environment_name self)) ;;
  let video_name :=
    experiment_name self ++ "-step-" ++ Py.str (n_calls self) in
  do_call (video_recorder (log_dir self) video_name (video_length self)) ;;
  do_call video_env_reset ;;
  repeat_m (Z.to_nat (video_length self + 1))
           (do_call model_predict ;; do_call video_env_step) ;;
  do_call video_env_close ;;
  let path_to_video :=
    Py.os_path_join (log_dir self)
      (video_name ++ "-step-0-to-step-" ++ Py.str (video_length self)
                  ++ ".mp4") in
  let path_to_json :=
    Py.os_path_join (log_dir self)
      (video_name ++ "-step-0-to-step-" ++ Py.str (video_length self)
                  ++ ".meta.json") in
  do_call (neptune_log_video path_to_video) ;;
  do_call (os_remove path_to_video) ;;
  do_call (os_remove path_to_json).

Definition _evaluate : M (R * R * R * R) :=
  self <- get_self ;;
  do_call (gym_make (environment_name self)) ;;
  do_call (evaluate_policy 5 false true true) ;;
  w <- get_world ;;
  let episode_rewards := fst (policy_eval w) in
  let episode_lengths := snd (policy_eval w) in
  ret (Np.mean episode_rewards, Np.std episode_rewards,
       Np.mean episode_lengths, Np.std episode_lengths).

(** Lines 152 to 166 of [_on_step]: the evaluation trigger and the final
    [return True]. *)
Definition on_step_evaluate : M bool :=
  self <- get_self ;;
  c <- py_mod (n_calls self) (evaluate_freq self) ;;
  (if Z.eqb c 0 then
     stats <- _evaluate ;;
     let '(mean_reward, std_reward, mean_ep_length, std_ep_length) := stats in
     (if make_video self then _make_video else ret tt) ;;
     do_call (neptune_log_metric "mean reward from evaluate" mean_reward) ;;
     do_call (neptune_log_metric "std_reward from evaluate" std_reward) ;;
     do_call (neptune_log_metric "mean episode length from evaluate"
                                 mean_ep_length) ;;
     do_call (neptune_log_metric "std episode length from evaluate"
                                 std_ep_length) ;;
     if float_gt mean_reward (best_mean_reward self) then
       set_best_mean_reward (Fin mean_reward) ;;
       do_call (model_save (Py.os_path_join (log_dir self) "best_model.plk"))
     else ret tt
   else ret tt) ;;
  ret true.

(** [_on_step]: lines 140 to 150, then [on_step_evaluate]; the [return
    True] of line 143 leaves the method at once. *)
Definition _on_step : M bool :=
  self <- get_self ;;
  c <- py_mod (n_calls self) (logs_freq self) ;;
  if Z.eqb c 0 then
    logs <- _load_logs ;;
    match logs with
    | None => ret true
    | Some (mean_reward, std_reward, mean_length, std_length) =>
        do_call (neptune_log_metric "mean reward from training" mean_reward) ;;
        do_call (neptune_log_metric "std reward from training" std_reward) ;;
        do_call (neptune_log_metric "mean length from training" mean_length) ;;
        do_call (neptune_log_metric "std length from training" std_length) ;;
        on_step_evaluate
    end
  else on_step_evaluate.

(** The training loop around the hook: before each [_on_step] the base
    class has set [n_calls], and between two invocations the world may have
    changed in any way.  The list holds the callback object after each
    invocation; an exception ends the loop. *)
Definition set_n_calls (n : Z) (self : NeptuneCallback) : NeptuneCallback :=
  {| model := model self; logs_freq := logs_freq self;
     evaluate_freq := evaluate_freq self; log_dir := log_dir self;
     best_mean_reward := best_mean_reward self;
     video_length := video_length self; make_video := make_video self;
     neptune_account_name := neptune_account_name self;
     project_name := project_name self;
     experiment_name := experiment_name self;
     neptune_logger := neptune_logger self;
     model_parameter := model_parameter self;
     comment := comment self; random_seed := random_seed self;
     environment_name := environment_name self;
     n_calls := n |}.

Fixpoint train (self : NeptuneCallback) (steps : list (Z * world))
  : list NeptuneCallback :=
  match steps with
  | [] => []
  | (n, w) :: rest =>
      match _on_step (set_n_calls n self, w) with
      | (Ok _, (self', _)) => self' :: train self' rest
      | (Raise _, (self', _)) => [self']
      end
  end.

(** ** Log aggregation as the design describes it

    Drop the first data row of each matching file, keep the trailing window
    of up to four of the remaining rows, pool the windows of all matching
    files, and take mean and population standard deviation of the pooled
    returns and of the pooled lengths. *)

Module Spec.

(** [s] ends with [suffix]. *)
Fixpoint has_suffix (suffix s : string) : bool :=
  String.eqb s suffix
  || match s with
     | EmptyString => false
     | String _ s' => has_suffix suffix s'
     end.

(** A regular file whose name carries the CSV extension. *)
Definition matching (e : dir_entry) : bool :=
  is_file e && has_suffix ".csv" (name e).

(** The last [k] elements. *)
Definition trailing {A} (k : nat) (xs : list A) : list A :=
  rev (firstn k (rev xs)).

Definition window (rows : list row) : list row := trailing 4 (tl rows).

Definition pool (listing : list dir_entry) : list row :=
  flat_map (fun e => window (csv_rows e)) (filter matching listing).

Definition arithmetic_mean (xs : list R) : R :=
  (fold_right Rplus 0 xs / INR (List.length xs))%R.

Definition population_std (xs : list R) : R :=
  sqrt (fold_right Rplus 0
          (map (fun x => (x - arithmetic_mean xs) * (x - arithmetic_mean xs))
               xs)
        / INR (List.length xs))%R.

Definition aggregate (pooled : list row) : option (R * R * R * R) :=
  match pooled with
  | [] => None
  | _ :: _ =>
      Some (arithmetic_mean (map r pooled), population_std (map r pooled),
            arithmetic_mean (map l pooled), population_std (map l pooled))
  end.

End Spec.

(** ** Vocabulary of the statements *)

(** No call fails. *)
Definition no_faults (w : world) : Prop := forall c, faults w c = false.

(** Only the upload of the hyperparameter text may fail. *)
Definition only_model_params_may_fail (w : world) : Prop :=
  forall c, faults w c = true ->
            exists text, c = neptune_log_text "Model Params" text.

(** The rows [_load_logs] keeps of one listed entry. *)
Definition kept_rows (log_dir : string) (e : dir_entry) : list row :=
  if is_csv_file log_dir e then
    let rows := Py.slice_from_1 (csv_rows e) in
    Py.slice_last (Nat.min 4 (List.length rows)) rows
  else [].

(** The calls of [_make_video]. *)
Definition video_calls (self : NeptuneCallback) : list call :=
  let video_name :=
    experiment_name self ++ "-step-" ++ Py.str (n_calls self) in
  let file extension :=
    Py.os_path_join (log_dir self)
      (video_name ++ "-step-0-to-step-" ++ Py.str (video_length self)
                  ++ extension) in
  ([gym_make (environment_name self);
    video_recorder (log_dir self) video_name (video_length self);
    video_env_reset]
   ++ List.concat (repeat [model_predict; video_env_step]
                          (Z.to_nat (video_length self + 1)))
   ++ [video_env_close;
       neptune_log_video (file ".mp4");
       os_remove (file ".mp4");
       os_remove (file ".meta.json")])%list.

(** The four training metrics. *)
Definition training_metrics (logs : R * R * R * R) : list call :=
  let '(mean_reward, std_reward, mean_length, std_length) := logs in
  [neptune_log_metric "mean reward from training" mean_reward;
   neptune_log_metric "std reward from training" std_reward;
   neptune_log_metric "mean length from training" mean_length;
   neptune_log_metric "std length from training" std_length].

(** The four evaluation metrics. *)
Definition evaluation_metrics (stats : R * R * R * R) : list call :=
  let '(mean_reward, std_reward, mean_ep_length, std_ep_length) := stats in
  [neptune_log_metric "mean reward from evaluate" mean_reward;
   neptune_log_metric "std_reward from evaluate" std_reward;
   neptune_log_metric "mean episode length from evaluate" mean_ep_length;
   neptune_log_metric "std episode length from evaluate" std_ep_length].

(** The statistics [_evaluate] computes in [w]. *)
Definition evaluation_stats (w : world) : R * R * R * R :=
  (Np.mean (fst (policy_eval w)), Np.std (fst (policy_eval w)),
   Np.mean (snd (policy_eval w)), Np.std (snd (policy_eval w))).

Definition is_model_save (c : call) : bool :=
  match c with
  | model_save _ => true
  | _ => false
  end.

Definition is_training_metric (c : call) : bool :=
  match c with
  | neptune_log_metric n _ =>
      String.eqb n "mean reward from training"
      || String.eqb n "std reward from training"
      || String.eqb n "mean length from training"
      || String.eqb n "std length from training"
  | _ => false
  end.

(** The calls completed between [w] and the later [w']. *)
Definition new_calls (w w' : world) : list call :=
  skipn (List.length (trace w)) (trace w').

(** The evaluation of [w] beats the best mean reward of [self]. *)
Definition improves (self : NeptuneCallback) (w : world) : bool :=
  float_gt (Np.mean (fst (policy_eval w))) (best_mean_reward self).

(** The calls of the evaluation trigger of [_on_step] in [w]. *)
Definition evaluation_calls (self : NeptuneCallback) (w : world) : list call :=
  ([gym_make (environment_name self); evaluate_policy 5 false true true]
   ++ (if make_video self then video_calls self else [])
   ++ evaluation_metrics (evaluation_stats w)
   ++ (if improves self w
       then [model_save (Py.os_path_join (log_dir self) "best_model.plk")]
       else []))%list.

(** The state after the evaluation trigger fired in [(self, w)]. *)
Definition after_evaluation (self : NeptuneCallback) (w : world) : state :=
  (if improves self w
   then with_best (Fin (Np.mean (fst (policy_eval w)))) self
   else self,
   add_trace (evaluation_calls self w) w).

(** The tags of [_init_callback]. *)
Definition session_tags (self : NeptuneCallback) : list string :=
  match random_seed self with
  | None => [model self; environment_name self]
  | Some seed =>
      [model self; environment_name self; "seed: " ++ Py.str seed]
  end.

(** What the [try] block of [_init_callback] uploads in [w]: nothing when
    building the text raises or when the upload itself fails. *)
Definition model_params_upload (self : NeptuneCallback) (w : world)
  : list call :=
  match model_params_text (model_parameter self) with
  | Ok text =>
      if faults w (neptune_log_text "Model Params" text) then []
      else [neptune_log_text "Model Params" text]
  | Raise _ => []
  end.

(** The calls of [_init_callback] after its [try] block. *)
Definition remaining_init_calls (self : NeptuneCallback) (w : world)
  : list call :=
  ([neptune_log_text "Path to local files" (log_dir self)]
   ++ match comment self with
      | Some c => [neptune_log_text "Comment" c]
      | None => []
      end
   ++ match fs w (log_dir self) with
      | Some _ => []
      | None => [os_mkdir (log_dir self)]
      end)%list.

(** All calls of a completed [_init_callback]. *)
Definition init_calls (self : NeptuneCallback) (w : world) : list call :=
  ([neptune_init (neptune_account_name self ++ "/" ++ project_name self);
    neptune_create_experiment (experiment_name self);
    neptune_append_tags (session_tags self)]
   ++ model_params_upload self w
   ++ remaining_init_calls self w)%list.

(** The state after a completed [_init_callback] from [(self, w)]. *)
Definition after_init (self : NeptuneCallback) (w : world) : state :=
  (with_logger
     (Some (returned_by_neptune_init
              (neptune_account_name self ++ "/" ++ project_name self))) self,
   match fs w (log_dir self) with
   | Some _ => add_trace (init_calls self w) w
   | None => make_dir (log_dir self) (add_trace (init_calls self w) w)
   end).

(** [m] leaves the callback object as it found it. *)
Definition keeps_self {A} (m : M A) : Prop :=
  forall s, fst (snd (m s)) = fst s.

(** [m] keeps the best mean reward at or above [b]. *)
Definition best_at_least (b : efloat) {A} (m : M A) : Prop :=
  forall s,
    efloat_le b (best_mean_reward (fst s)) ->
    efloat_le b (best_mean_reward (fst (snd (m s)))).

(** [m] leaves [best_mean_reward] as it found it. *)
Definition keeps_best {A} (m : M A) : Prop :=
  forall s,
    best_mean_reward (fst (snd (m s))) = best_mean_reward (fst s).

(** Every call [m] completes satisfies [P]. *)
Definition calls_only (P : call -> Prop) {A} (m : M A) : Prop :=
  forall s,
    exists cs,
      trace (snd (snd (m s))) = (trace (snd s) ++ cs)%list /\ Forall P cs.

(** A call other than an upload of the hyperparameter text. *)
Definition not_model_params (c : call) : Prop :=
  forall text, c <> neptune_log_text "Model Params" text.

(** [m] never returns [v]. *)
Definition never_returns {A} (v : A) (m : M A) : Prop :=
  forall s, fst (m s) <> Ok v.

(** [a < b] on [efloat]. *)
Definition efloat_lt (a b : efloat) : Prop :=
  match a, b with
  | _, NegInf => False
  | NegInf, Fin _ => True
  | Fin x, Fin y => (x < y)%R
  end.

(** ** Sample inputs *)

Module Sample.

Local Open Scope R_scope.

(** A callback built with the default frequencies. *)
Definition callback : NeptuneCallback :=
  __init__ "PPO" "Hopper-v2" "team" "mujoco" "run-1" "logs"
           None None None default_logs_freq default_evaluate_freq
           default_video_length false.

(** The same with hyperparameters, a comment and a seed. *)
Definition described : NeptuneCallback :=
  __init__ "PPO" "Hopper-v2" "team" "mujoco" "run-1" "logs"
           (Some 7%Z) (Some [("lr", "0.1"); ("gamma", "0.99")])
           (Some "baseline") default_logs_freq default_evaluate_freq
           default_video_length true.

Definition csv (file_name : string) (rows : list row) : dir_entry :=
  {| name := file_name; is_file := true; csv_rows := rows |}.

Definition one_row : dir_entry := csv "0.monitor.csv" [{| r := 5; l := 7 |}].

Definition two_rows : dir_entry :=
  csv "0.monitor.csv" [{| r := 5; l := 7 |}; {| r := 9; l := 11 |}].

Definition six_rows : dir_entry :=
  csv "1.monitor.csv"
      [{| r := 1; l := 10 |}; {| r := 2; l := 20 |}; {| r := 3; l := 30 |};
       {| r := 4; l := 40 |}; {| r := 5; l := 50 |}; {| r := 6; l := 60 |}].

Definition notes : dir_entry :=
  {| name := "notes.txt"; is_file := true;
     csv_rows := [{| r := 1; l := 1 |}; {| r := 2; l := 2 |}] |}.

Definition episodes : list R * list R :=
  ([10; 20; 30; 40; 50], [100; 100; 100; 100; 100]).

(** A world where no call fails; [listing] is the content of ["logs"],
    or [None] when the directory is missing. *)
Definition quiet (listing : option (list dir_entry)) : world :=
  {| fs := fun p => if String.eqb p "logs" then listing else None;
     policy_eval := episodes;
     faults := fun _ => false;
     trace := [] |}.

(** A world where every upload of the hyperparameter text fails. *)
Definition upload_fails (listing : option (list dir_entry)) : world :=
  {| fs := fun p => if String.eqb p "logs" then listing else None;
     policy_eval := episodes;
     faults := fun c =>
                 match c with
                 | neptune_log_text n _ => String.eqb n "Model Params"
                 | _ => false
                 end;
     trace := [] |}.

(** A world where the Neptune session cannot be opened. *)
Definition session_fails : world :=
  {| fs := fun _ => None;
     policy_eval := episodes;
     faults := fun c =>
                 match c with
                 | neptune_init _ => true
                 | _ => false
                 end;
     trace := [] |}.

End Sample.

(** ** The aggregation on binary64 values

    Python floats are IEEE binary64 values, and the sums of [np.mean] and
    [np.std] round after every addition.  This module has the loop of
    [_load_logs] and the statistics on these values, for the statements
    whose truth depends on the rounding. *)

Module Binary64.

Import PrimFloat.

(** A data row with the values [float(row['r'])] and [float(row['l'])]
    gave. *)
Record row : Type := { r : float; l : float }.

Record dir_entry : Type := {
  name : string;
  is_file : bool;
  csv_rows : list row
}.

(** [np.sum] of an array of fewer than eight values: numpy adds them in
    order.  (From eight values on it adds in blocks; use [sum] below
    eight values only.) *)
Definition sum (a : list float) : float := fold_left PrimFloat.add a 0%float.

(** The number of values, as the float numpy divides by. *)
Definition count (a : list float) : float :=
  PrimFloat.of_uint63 (Uint63.of_Z (Z.of_nat (List.length a))).

(** [np.mean(a)]. *)
Definition mean (a : list float) : float := (sum a / count a)%float.

(** [np.std(a)]: the root of the mean of the squared deviations. *)
Definition std (a : list float) : float :=
  PrimFloat.sqrt
    (sum (map (fun x => ((x - mean a) * (x - mean a))%float) a) / count a)%float.

(** The test of line 80. *)
Definition is_csv_file (log_dir : string) (e : dir_entry) : bool :=
  let file_or_dir := Py.os_path_join log_dir (name e) in
  is_file e
  && String.eqb (Py.str_last (String.length ".csv") file_or_dir) ".csv".

(** The inner [for row in rows] loop. *)
Definition append_rows (acc : list float * list float) (rows : list row)
  : list float * list float :=
  fold_left (fun acc row => ((fst acc ++ [r row])%list,
                             (snd acc ++ [l row])%list))
            rows acc.

(** One turn of the loop over the directory. *)
Definition load_entry (log_dir : string) (acc : list float * list float)
    (e : dir_entry) : list float * list float :=
  if is_csv_file log_dir e then
    let rows := Py.slice_from_1 (csv_rows e) in
    if Nat.eqb (List.length rows) 0 then acc
    else
      let lasts := Nat.min 4 (List.length rows) in
      let rows := Py.slice_last lasts rows in
      append_rows acc rows
  else acc.

(** [last_rewards] and [last_ep_lengths] after the loop over [listing]. *)
Definition accumulate (log_dir : string) (listing : list dir_entry)
  : list float * list float :=
  fold_left (load_entry log_dir) listing ([], []).

(** [_load_logs] once [os.listdir] has returned [listing]. *)
Definition _load_logs (log_dir : string) (listing : list dir_entry)
  : option (float * float * float * float) :=
  let acc := accumulate log_dir listing in
  let last_rewards := fst acc in
  let last_ep_lengths := snd acc in
  if Nat.eqb (List.length last_rewards) 0 then None
  else Some (mean last_rewards, std last_rewards,
             mean last_ep_lengths, std last_ep_lengths).

(** The rows the loop keeps of a file: the trailing window of up to four
    rows after the first. *)
Definition window (e : dir_entry) : list row :=
  Spec.trailing 4 (tl (csv_rows e)).

(** The rows the loop keeps of a listed entry. *)
Definition kept_rows (log_dir : string) (e : dir_entry) : list row :=
  if is_csv_file log_dir e then window e else [].

(** The mean reward of a result. *)
Definition mean_reward (logs : option (float * float * float * float))
  : option float :=
  option_map (fun stats => fst (fst (fst stats))) logs.



End Binary64.

(** ** Vocabulary of the further properties *)

(** No call fails unless [may] allows it. *)
Definition quiet_except (may : call -> bool) (w : world) : Prop :=
  forall c, may c = false -> faults w c = false.

Definition is_model_predict (c : call) : bool :=
  match c with
  | model_predict => true
  | _ => false
  end.

Definition is_os_remove (c : call) : bool :=
  match c with
  | os_remove _ => true
  | _ => false
  end.

Definition is_video_call (c : call) : bool :=
  match c with
  | video_recorder _ _ _ | video_env_reset | model_predict | video_env_step
  | video_env_close | neptune_log_video _ | os_remove _ => true
  | _ => false
  end.

(** The calls [m] completes are calls satisfying [P] followed by a tail
    satisfying [Q]. *)
Definition calls_then (P : call -> Prop) (Q : list call -> Prop) {A}
    (m : M A) : Prop :=
  forall s,
    exists cs t,
      trace (snd (snd (m s))) = (trace (snd s) ++ cs ++ t)%list
      /\ Forall P cs /\ Q t.

(** The same from the states whose object is [self]. *)
Definition calls_then_from (self : NeptuneCallback) (P : call -> Prop)
    (Q : list call -> Prop) {A} (m : M A) : Prop :=
  forall s,
    fst s = self ->
    exists cs t,
      trace (snd (snd (m s))) = (trace (snd s) ++ cs ++ t)%list
      /\ Forall P cs /\ Q t.

(** [m] completes no call. *)
Definition silent {A} (m : M A) : Prop :=
  forall s, trace (snd (snd (m s))) = trace (snd s).

(** No [model.save], or one to the checkpoint file of [self]. *)
Definition at_most_one_save (self : NeptuneCallback) (t : list call) : Prop :=
  t = []
  \/ t = [model_save (Py.os_path_join (log_dir self) "best_model.plk")].

(** The video file [_make_video] uploads. *)
Definition video_path (self : NeptuneCallback) : string :=
  Py.os_path_join (log_dir self)
    ((experiment_name self ++ "-step-" ++ Py.str (n_calls self))
     ++ "-step-0-to-step-" ++ Py.str (video_length self) ++ ".mp4").

(** Nothing, or calls that start with the upload of the video of
    [self]. *)
Definition starts_with_upload (self : NeptuneCallback) (t : list call)
  : Prop :=
  t = [] \/ exists rest, t = neptune_log_video (video_path self) :: rest.

(** [m] leaves the failing calls of the world as they are, and raises only
    exceptions that [allowed] admits for them. *)
Definition raises_only (allowed : (call -> bool) -> exn -> Prop) {A}
    (m : M A) : Prop :=
  forall s,
    faults (snd (snd (m s))) = faults (snd s)
    /\ forall e, fst (m s) = Raise e -> allowed (faults (snd s)) e.

(** The failure of a call other than the upload of the hyperparameter
    text. *)
Definition external_failure (failing : call -> bool) (e : exn) : Prop :=
  exists c, e = ExternalError c /\ failing c = true /\ not_model_params c.

(** The failure of a call. *)
Definition call_failure (failing : call -> bool) (e : exn) : Prop :=
  exists c, e = ExternalError c /\ failing c = true.

(** [m] changes no attribute of the object but [best_mean_reward]. *)
Definition changes_only_best {A} (m : M A) : Prop :=
  forall s, fst (snd (m s)) = with_best (best_mean_reward (fst (snd (m s)))) (fst s).

(** [m] changes no attribute of the object but [neptune_logger]. *)
Definition changes_only_logger {A} (m : M A) : Prop :=
  forall s, fst (snd (m s)) = with_logger (neptune_logger (fst (snd (m s)))) (fst s).

(** One line of the hyperparameter text. *)
Definition param_line (kv : string * string) : string :=
  fst kv ++ ": " ++ snd kv.

(** The lines of [d], each followed by a line break. *)
Definition param_lines (d : list (string * string)) : string :=
  fold_right (fun kv text => param_line kv ++ Py.nl ++ text) "" d.

Module MoreSamples.

Local Open Scope R_scope.

(** A callback that records short videos. *)
Definition filming : NeptuneCallback :=
  __init__ "PPO" "Hopper-v2" "team" "mujoco" "run-1" "logs"
           None None None default_logs_freq default_evaluate_freq 2 true.

(** Eight data rows: the first, three old ones and the last four. *)
Definition eight_rows : dir_entry :=
  Sample.csv "2.monitor.csv"
      [{| r := 0; l := 1 |}; {| r := 1; l := 2 |}; {| r := 2; l := 3 |};
       {| r := 3; l := 4 |}; {| r := 4; l := 5 |}; {| r := 5; l := 6 |};
       {| r := 6; l := 7 |}; {| r := 7; l := 8 |}].

(** Another history with the same last four rows. *)
Definition same_tail : dir_entry :=
  Sample.csv "2.monitor.csv"
      [{| r := 100; l := 100 |};
       {| r := 4; l := 5 |}; {| r := 5; l := 6 |};
       {| r := 6; l := 7 |}; {| r := 7; l := 8 |}].

(** A directory whose name ends in [.csv]. *)
Definition csv_directory : dir_entry :=
  {| name := "old.csv"; is_file := false;
     csv_rows := [{| r := 1; l := 1 |}; {| r := 2; l := 2 |}] |}.

(** A world where [model.save] fails and nothing else does. *)
Definition save_fails (listing : option (list dir_entry)) : world :=
  {| fs := fun p => if String.eqb p "logs" then listing else None;
     policy_eval := Sample.episodes;
     faults := is_model_save;
     trace := [] |}.

(** A world where the upload of a video fails and nothing else does. *)
Definition video_upload_fails : world :=
  {| fs := fun p => if String.eqb p "logs" then Some [] else None;
     policy_eval := Sample.episodes;
     faults := fun c =>
                 match c with
                 | neptune_log_video _ => true
                 | _ => false
                 end;
     trace := [] |}.

End MoreSamples.

(** * Properties *)

(** ** Lists and strings *)

Section ListFacts.

Context {A : Type}.

Lemma slice_last_trailing (k : nat) (xs : list A) :
  Py.slice_last (Nat.min (S k) (List.length xs)) xs = Spec.trailing (S k) xs.
Proof.
  unfold Spec.trailing.
  rewrite firstn_rev, rev_involutive.
  destruct xs as [|x xs']; [reflexivity|].
  unfold Py.slice_last.
  destruct (Nat.min (S k) (List.length (x :: xs'))) eqn:E.
  - simpl in E. discriminate.
  - rewrite <- E. f_equal. lia.
Qed.

End ListFacts.

Lemma append_rows_map (rows : list row) (acc : list R * list R) :
  append_rows acc rows
  = ((fst acc ++ map r rows)%list, (snd acc ++ map l rows)%list).
Proof.
  unfold append_rows. revert acc.
  induction rows as [|x rows IH]; intros [rs ls]; simpl.
  - now rewrite !app_nil_r.
  - rewrite IH. simpl. now rewrite <- !app_assoc.
Qed.

Lemma load_entry_kept (log_dir : string) (acc : list R * list R)
    (e : dir_entry) :
  load_entry log_dir acc e
  = ((fst acc ++ map r (kept_rows log_dir e))%list,
     (snd acc ++ map l (kept_rows log_dir e))%list).
Proof.
  unfold load_entry, kept_rows.
  destruct (is_csv_file log_dir e).
  - destruct (Py.slice_from_1 (csv_rows e)) as [|x rows] eqn:E.
    + simpl. rewrite !app_nil_r. now destruct acc.
    + cbv zeta. change (Nat.eqb (List.length (x :: rows)) 0) with false.
      cbv iota. apply append_rows_map.
  - simpl. rewrite !app_nil_r. now destruct acc.
Qed.

Lemma load_loop_kept (log_dir : string) (listing : list dir_entry)
    (acc : list R * list R) :
  fold_left (load_entry log_dir) listing acc
  = ((fst acc ++ map r (flat_map (kept_rows log_dir) listing))%list,
     (snd acc ++ map l (flat_map (kept_rows log_dir) listing))%list).
Proof.
  revert acc. induction listing as [|e listing IH]; intros acc; simpl.
  - rewrite !app_nil_r. now destruct acc.
  - rewrite IH, load_entry_kept. simpl.
    now rewrite !map_app, !app_assoc.
Qed.

Section StringFacts.

Lemma append_assoc (a b c : string) : (a ++ b) ++ c = a ++ b ++ c.
Proof. induction a as [|x a IH]; simpl; [reflexivity | now rewrite IH]. Qed.

Lemma length_append (a b : string) :
  String.length (a ++ b) = (String.length a + String.length b)%nat.
Proof. induction a as [|x a IH]; simpl; [reflexivity | now rewrite IH]. Qed.

Lemma list_of_append (a b : string) :
  list_ascii_of_string (a ++ b)
  = (list_ascii_of_string a ++ list_ascii_of_string b)%list.
Proof. induction a as [|x a IH]; simpl; [reflexivity | now rewrite IH]. Qed.

Lemma str_skipn_append (p t : string) :
  Py.str_skipn (String.length p) (p ++ t) = t.
Proof. induction p as [|x p IH]; simpl; [now destruct t | exact IH]. Qed.

Lemma str_skipn_split (n : nat) (s : string) :
  exists p, s = p ++ Py.str_skipn n s.
Proof.
  revert s. induction n as [|n IH]; intros s.
  - exists "". now destruct s.
  - destruct s as [|c s]; simpl.
    + now exists "".
    + destruct (IH s) as [p Hp]. exists (String c p). simpl. now rewrite <- Hp.
Qed.

(** The two suffix tests, of the code and of the design, both say that
    the string ends with the suffix. *)
Lemma str_last_ends_with (suffix s : string) :
  String.eqb (Py.str_last (String.length suffix) s) suffix = true
  <-> exists p, s = p ++ suffix.
Proof.
  unfold Py.str_last. rewrite String.eqb_eq. split.
  - intros H. destruct (str_skipn_split (String.length s - String.length suffix) s)
      as [p Hp].
    exists p. now rewrite <- H.
  - intros [p ->]. rewrite length_append.
    replace (String.length p + String.length suffix - String.length suffix)%nat
      with (String.length p) by lia.
    apply str_skipn_append.
Qed.

Lemma has_suffix_eq (suffix s : string) :
  Spec.has_suffix suffix s
  = String.eqb s suffix
    || match s with
       | EmptyString => false
       | String _ s' => Spec.has_suffix suffix s'
       end.
Proof. now destruct s. Qed.

Lemma has_suffix_ends_with (suffix s : string) :
  Spec.has_suffix suffix s = true <-> exists p, s = p ++ suffix.
Proof.
  split.
  - induction s as [|c s IH]; rewrite has_suffix_eq, orb_true_iff,
      String.eqb_eq.
    + intros [H|H]; [now exists "" | discriminate].
    + intros [H|H]; [now exists "" |].
      destruct (IH H) as [p ->]. now exists (String c p).
  - intros [p ->]. induction p as [|c p IH]; rewrite has_suffix_eq.
    + simpl. now rewrite String.eqb_refl.
    + change (String c p ++ suffix) with (String c (p ++ suffix)).
      cbv iota. rewrite IH. apply orb_true_r.
Qed.

Lemma join_shape (a b : string) :
  Py.os_path_join a b = b
  \/ exists q, Py.os_path_join a b = q ++ "/" ++ b.
Proof.
  unfold Py.os_path_join.
  destruct (Py.starts_with_slash b); [now left|].
  destruct (String.eqb a "") eqn:Ea; simpl.
  - apply String.eqb_eq in Ea. subst a. now left.
  - destruct (Py.ends_with_slash a) eqn:Es.
    + right. unfold Py.ends_with_slash in Es.
      apply (str_last_ends_with "/" a) in Es. destruct Es as [q ->].
      exists q. apply append_assoc.
    + right. now exists a.
Qed.

(** A joined path carries the extension exactly when its last component
    does. *)
Lemma join_ends_with_csv (a b : string) :
  (exists p, Py.os_path_join a b = p ++ ".csv")
  <-> (exists p, b = p ++ ".csv").
Proof.
  destruct (join_shape a b) as [->|[q ->]]; [reflexivity|]. split.
  - intros [p H].
    apply (f_equal list_ascii_of_string) in H.
    rewrite !list_of_append in H. simpl in H.
    apply app_eq_app in H. destruct H as [m [[_ H]|[_ H]]].
    + exfalso.
      assert (Hin : In "/"%char (m ++ "/"%char :: list_ascii_of_string b))
        by (apply in_or_app; right; left; reflexivity).
      rewrite <- H in Hin. simpl in Hin.
      repeat (destruct Hin as [Hin|Hin]; [discriminate|]). exact Hin.
    + destruct m as [|x m]; simpl in H; [discriminate|].
      injection H as _ H. exists (string_of_list_ascii m).
      rewrite <- (string_of_list_ascii_of_string b), H.
      clear. induction m as [|y m IH]; simpl; [reflexivity | now rewrite IH].
  - intros [p ->]. exists (q ++ "/" ++ p). now rewrite !append_assoc.
Qed.

Lemma is_csv_file_matching (log_dir : string) (e : dir_entry) :
  is_csv_file log_dir e = Spec.matching e.
Proof.
  unfold is_csv_file, Spec.matching. f_equal.
  apply eq_true_iff_eq.
  rewrite (str_last_ends_with ".csv"), has_suffix_ends_with.
  apply join_ends_with_csv.
Qed.

End StringFacts.

(** ** numpy against the textbook definitions *)

Section Statistics.

Local Open Scope R_scope.

Lemma mean_arithmetic (xs : list R) : Np.mean xs = Spec.arithmetic_mean xs.
Proof. reflexivity. Qed.

Lemma std_population (xs : list R) : Np.std xs = Spec.population_std xs.
Proof.
  unfold Np.std, Spec.population_std, Np.mean at 1, Np.sum.
  rewrite length_map. do 3 f_equal.
  apply map_ext. intros x. rewrite <- Rsqr_abs. reflexivity.
Qed.

Lemma mean_singleton (x : R) : Np.mean [x] = x.
Proof. unfold Np.mean, Np.sum. simpl. field. Qed.

Lemma std_singleton (x : R) : Np.std [x] = 0.
Proof.
  unfold Np.std. rewrite mean_singleton. simpl map.
  rewrite mean_singleton.
  replace (x - x) with 0 by ring.
  rewrite Rabs_R0, Rsqr_0. apply sqrt_0.
Qed.

End Statistics.

(** ** The rows [_load_logs] keeps *)

Lemma flat_map_filter {A B} (f : A -> bool) (g : A -> list B) (xs : list A) :
  flat_map (fun x => if f x then g x else []) xs = flat_map g (filter f xs).
Proof.
  induction xs as [|x xs IH]; simpl; [reflexivity|].
  destruct (f x); simpl; now rewrite IH.
Qed.

Lemma kept_rows_window (log_dir : string) (e : dir_entry) :
  kept_rows log_dir e
  = if Spec.matching e then Spec.window (csv_rows e) else [].
Proof.
  unfold kept_rows. rewrite is_csv_file_matching.
  destruct (Spec.matching e); [|reflexivity].
  cbv zeta. unfold Spec.window, Py.slice_from_1.
  apply slice_last_trailing.
Qed.

Lemma kept_rows_pool (log_dir : string) (listing : list dir_entry) :
  flat_map (kept_rows log_dir) listing = Spec.pool listing.
Proof.
  unfold Spec.pool. rewrite <- flat_map_filter.
  apply flat_map_ext. intros e. apply kept_rows_window.
Qed.

(** Unfolds the plumbing of [M]. *)
Ltac unfold_m :=
  repeat (progress (unfold bind, ret, raise, get_self, get_world, lift,
                    os_listdir, os_path_exists, py_mod;
                    cbn [fst snd])).

(** What [_load_logs] returns on an existing directory, and that it
    touches neither the object nor the world. *)
Lemma load_logs_run (self : NeptuneCallback) (w : world)
    (listing : list dir_entry) :
  fs w (log_dir self) = Some listing ->
  _load_logs (self, w) = (Ok (Spec.aggregate (Spec.pool listing)), (self, w)).
Proof.
  intros H. unfold _load_logs. unfold_m. rewrite H.
  rewrite load_loop_kept, kept_rows_pool. cbn [fst snd app].
  destruct (Spec.pool listing) as [|x pooled]; [reflexivity|].
  cbn [map List.length Nat.eqb Spec.aggregate].
  rewrite !std_population. reflexivity.
Qed.

Lemma load_logs_missing (self : NeptuneCallback) (w : world) :
  fs w (log_dir self) = None ->
  _load_logs (self, w) = (Raise (FileNotFoundError (log_dir self)), (self, w)).
Proof.
  intros H. unfold _load_logs. unfold_m. now rewrite H.
Qed.

(** ** Runs without faults *)

Lemma add_trace_nil (w : world) : add_trace [] w = w.
Proof. destruct w. unfold add_trace. simpl. now rewrite app_nil_r. Qed.

Lemma add_trace_app (a b : list call) (w : world) :
  add_trace b (add_trace a w) = add_trace (a ++ b) w.
Proof. unfold add_trace. simpl. now rewrite app_assoc. Qed.

Lemma no_faults_add_trace (cs : list call) (w : world) :
  no_faults w -> no_faults (add_trace cs w).
Proof. intros H c. exact (H c). Qed.

Lemma new_calls_add_trace (cs : list call) (w : world) :
  new_calls w (add_trace cs w) = cs.
Proof.
  unfold new_calls, add_trace. simpl.
  rewrite skipn_app, Nat.sub_diag, skipn_all. reflexivity.
Qed.

Lemma new_calls_same (w : world) : new_calls w w = [].
Proof. unfold new_calls. apply skipn_all. Qed.

Lemma bind_do_call {A} (c : call) (k : unit -> M A)
    (self : NeptuneCallback) (w : world) :
  faults w c = false ->
  bind (do_call c) k (self, w) = k tt (self, add_trace [c] w).
Proof. intros H. unfold bind, do_call. simpl. now rewrite H. Qed.

Lemma do_call_run (c : call) (self : NeptuneCallback) (w : world) :
  faults w c = false ->
  do_call c (self, w) = (Ok tt, (self, add_trace [c] w)).
Proof. intros H. unfold do_call. simpl. now rewrite H. Qed.

(** Runs the next call of a fault-free world. *)
Ltac run_call H :=
  rewrite bind_do_call by (first [apply H | apply no_faults_add_trace, H]);
  rewrite ?add_trace_app.

Lemma repeat_m_run (n : nat) (a b : call) (self : NeptuneCallback)
    (w : world) :
  no_faults w ->
  repeat_m n (do_call a ;; do_call b) (self, w)
  = (Ok tt, (self, add_trace (List.concat (repeat [a; b] n)) w)).
Proof.
  intros H. revert w H. induction n as [|n IH]; intros w H; simpl.
  - unfold ret. now rewrite add_trace_nil.
  - unfold bind at 1. rewrite bind_do_call by apply H.
    rewrite do_call_run by apply no_faults_add_trace, H.
    rewrite IH by (repeat apply no_faults_add_trace; exact H).
    now rewrite !add_trace_app.
Qed.

Lemma make_video_run (self : NeptuneCallback) (w : world) :
  no_faults w ->
  _make_video (self, w) = (Ok tt, (self, add_trace (video_calls self) w)).
Proof.
  intros H. unfold _make_video.
  unfold bind at 1, get_self at 1. cbn [fst snd].
  do 3 run_call H.
  unfold bind at 1.
  rewrite repeat_m_run by (apply no_faults_add_trace, H).
  rewrite add_trace_app.
  do 3 run_call H.
  rewrite do_call_run by (apply no_faults_add_trace, H).
  rewrite add_trace_app. unfold video_calls.
  repeat rewrite <- app_assoc. reflexivity.
Qed.

Lemma evaluate_run (self : NeptuneCallback) (w : world) :
  no_faults w ->
  _evaluate (self, w)
  = (Ok (evaluation_stats w),
     (self,
      add_trace [gym_make (environment_name self);
                 evaluate_policy 5 false true true] w)).
Proof.
  intros H. unfold _evaluate.
  unfold bind at 1, get_self at 1. cbn [fst snd].
  do 2 run_call H. reflexivity.
Qed.

Lemma py_mod_run (a b : Z) (s : state) :
  b <> 0%Z -> py_mod a b s = (Ok (a mod b)%Z, s).
Proof.
  intros H. unfold py_mod. apply Z.eqb_neq in H. now rewrite H.
Qed.

(** The evaluation trigger in a fault-free world. *)
Lemma on_step_evaluate_run (self : NeptuneCallback) (w : world) :
  no_faults w ->
  evaluate_freq self <> 0%Z ->
  on_step_evaluate (self, w)
  = (Ok true,
     if Z.eqb (n_calls self mod evaluate_freq self) 0
     then after_evaluation self w
     else (self, w)).
Proof.
  intros H Hf. unfold on_step_evaluate.
  unfold bind at 1, get_self at 1. cbn [fst snd].
  unfold bind at 1. rewrite py_mod_run by exact Hf.
  destruct (Z.eqb (n_calls self mod evaluate_freq self) 0);
    [|reflexivity].
  unfold bind at 1. unfold bind at 1.
  rewrite evaluate_run by exact H.
  unfold evaluation_stats at 1. cbv iota beta.
  unfold after_evaluation, evaluation_calls, improves.
  unfold bind at 1.
  destruct (make_video self).
  - rewrite make_video_run by (apply no_faults_add_trace, H).
    rewrite add_trace_app. do 4 run_call H.
    destruct (float_gt (Np.mean (fst (policy_eval w)))
                       (best_mean_reward self)).
    + unfold bind at 1, set_best_mean_reward at 1. cbn [fst snd].
      rewrite do_call_run by (apply no_faults_add_trace, H).
      rewrite add_trace_app. unfold ret.
      repeat rewrite <- app_assoc. reflexivity.
    + unfold ret. rewrite app_nil_r.
      repeat rewrite <- app_assoc. reflexivity.
  - unfold ret at 1. do 4 run_call H.
    destruct (float_gt (Np.mean (fst (policy_eval w)))
                       (best_mean_reward self)).
    + unfold bind at 1, set_best_mean_reward at 1. cbn [fst snd].
      rewrite do_call_run by (apply no_faults_add_trace, H).
      rewrite add_trace_app. unfold ret. reflexivity.
    + unfold ret. reflexivity.
Qed.

(** [_on_step] in a fault-free world whose log directory exists. *)
Lemma on_step_run (self : NeptuneCallback) (w : world)
    (listing : list dir_entry) :
  no_faults w ->
  logs_freq self <> 0%Z ->
  fs w (log_dir self) = Some listing ->
  _on_step (self, w)
  = if Z.eqb (n_calls self mod logs_freq self) 0
    then match Spec.aggregate (Spec.pool listing) with
         | None => (Ok true, (self, w))
         | Some logs =>
             on_step_evaluate (self, add_trace (training_metrics logs) w)
         end
    else on_step_evaluate (self, w).
Proof.
  intros H Hf Hd. unfold _on_step.
  unfold bind at 1, get_self at 1. cbn [fst snd].
  unfold bind at 1. rewrite py_mod_run by exact Hf.
  destruct (Z.eqb (n_calls self mod logs_freq self) 0); [|reflexivity].
  unfold bind at 1. rewrite (load_logs_run _ _ _ Hd).
  destruct (Spec.aggregate (Spec.pool listing)) as [[[[a b] c] d]|];
    [|reflexivity].
  do 4 run_call H. reflexivity.
Qed.

(** ** Initialisation *)

Lemma may_fail_only_upload (w : world) (c : call) :
  only_model_params_may_fail w ->
  (forall text, c <> neptune_log_text "Model Params" text) ->
  faults w c = false.
Proof.
  intros H Hc. destruct (faults w c) eqn:E; [|reflexivity].
  destruct (H c E) as [text ->]. now destruct (Hc text).
Qed.

Lemma may_fail_add_trace (cs : list call) (w : world) :
  only_model_params_may_fail w ->
  only_model_params_may_fail (add_trace cs w).
Proof. intros H c. exact (H c). Qed.

(** Runs the next call when only the upload may fail. *)
Ltac run_safe_call H :=
  rewrite bind_do_call
    by (apply may_fail_only_upload;
        [first [exact H | apply may_fail_add_trace, H]
        | intros ? ?; discriminate]);
  rewrite ?add_trace_app.

(** The [try] block never raises. *)
Lemma upload_run (self self' : NeptuneCallback) (w0 w : world) :
  faults w = faults w0 ->
  try_except_pass
    (text <- lift (model_params_text (model_parameter self)) ;;
     do_call (neptune_log_text "Model Params" text)) (self', w)
  = (Ok tt, (self', add_trace (model_params_upload self w0) w)).
Proof.
  intros Hf. unfold try_except_pass, model_params_upload, bind, lift.
  destruct (model_params_text (model_parameter self)) as [text|e].
  - unfold do_call. cbn [fst snd]. rewrite Hf.
    destruct (faults w0 (neptune_log_text "Model Params" text));
      [now rewrite add_trace_nil | reflexivity].
  - now rewrite add_trace_nil.
Qed.

Lemma mkdir_run (path : string) (self : NeptuneCallback) (w : world) :
  faults w (os_mkdir path) = false ->
  mkdir path (self, w) = (Ok tt, (self, make_dir path (add_trace [os_mkdir path] w))).
Proof. intros H. unfold mkdir. rewrite bind_do_call by exact H. reflexivity. Qed.

(** [_init_callback] completes whenever nothing but the upload of the
    hyperparameter text fails. *)
Lemma init_callback_run (self : NeptuneCallback) (w : world) :
  only_model_params_may_fail w ->
  _init_callback (self, w) = (Ok tt, after_init self w).
Proof.
  intros H. unfold _init_callback.
  unfold bind at 1, get_self at 1. cbn [fst snd].
  run_safe_call H.
  unfold bind at 1, set_neptune_logger at 1. cbn [fst snd].
  run_safe_call H.
  assert (Htags :
    forall (s : state),
      snd s = add_trace
                [neptune_init
                   (neptune_account_name self ++ "/" ++ project_name self);
                 neptune_create_experiment (experiment_name self)] w ->
      match random_seed self with
      | None =>
          do_call (neptune_append_tags [model self; environment_name self])
      | Some seed =>
          do_call (neptune_append_tags
                     [model self; environment_name self;
                      "seed: " ++ Py.str seed])
      end s
      = (Ok tt, (fst s, add_trace [neptune_append_tags (session_tags self)]
                                  (snd s)))).
  { intros [self' w'] Hs. cbn [fst snd] in *. subst w'.
    unfold session_tags.
    destruct (random_seed self);
      apply do_call_run, may_fail_only_upload;
      try (apply may_fail_add_trace, H); intros ? ?; discriminate. }
  unfold bind at 1. rewrite Htags by reflexivity. cbn [fst snd].
  rewrite add_trace_app.
  unfold bind at 1. rewrite (upload_run _ _ w) by reflexivity.
  rewrite add_trace_app.
  run_safe_call H.
  unfold after_init, init_calls, remaining_init_calls.
  destruct (comment self) as [c|].
  - run_safe_call H.
    unfold bind at 1, os_path_exists at 1, bind at 1, get_world at 1.
    cbn [fst snd]. unfold ret at 1. cbn [fs add_trace].
    destruct (fs w (log_dir self)); cbn [negb].
    + unfold ret. repeat (rewrite <- app_assoc; cbn [app]).
      rewrite ?app_nil_r. reflexivity.
    + rewrite mkdir_run
        by (apply may_fail_only_upload;
            [apply may_fail_add_trace, H | intros ? ?; discriminate]).
      rewrite add_trace_app.
      repeat (rewrite <- app_assoc; cbn [app]). reflexivity.
  - unfold bind at 1, ret at 1.
    unfold bind at 1, os_path_exists at 1, bind at 1, get_world at 1.
    cbn [fst snd]. unfold ret at 1. cbn [fs add_trace].
    destruct (fs w (log_dir self)); cbn [negb].
    + unfold ret. repeat (rewrite <- app_assoc; cbn [app]).
      rewrite ?app_nil_r. reflexivity.
    + rewrite mkdir_run
        by (apply may_fail_only_upload;
            [apply may_fail_add_trace, H | intros ? ?; discriminate]).
      rewrite add_trace_app.
      repeat (rewrite <- app_assoc; cbn [app]). reflexivity.
Qed.

(** ** What holds whatever fails *)

Lemma efloat_le_refl (a : efloat) : efloat_le a a.
Proof. destruct a; simpl; [exact I | lra]. Qed.

Lemma efloat_le_trans (a b c : efloat) :
  efloat_le a b -> efloat_le b c -> efloat_le a c.
Proof. destruct a, b, c; simpl; try tauto; lra. Qed.

Lemma float_gt_le (m : R) (b : efloat) :
  float_gt m b = true -> efloat_le b (Fin m).
Proof.
  destruct b as [|x]; simpl; [trivial|].
  destruct (Rlt_dec x m); [lra | discriminate].
Qed.

Section KeepsSelf.

Context {A B : Type}.

Lemma keeps_self_ret (a : A) : keeps_self (ret a).
Proof. now intros s. Qed.

Lemma keeps_self_raise (e : exn) : keeps_self (@raise A e).
Proof. now intros s. Qed.

Lemma keeps_self_lift (x : result A) : keeps_self (lift x).
Proof. now intros s. Qed.

Lemma keeps_self_bind (m : M A) (k : A -> M B) :
  keeps_self m -> (forall a, keeps_self (k a)) -> keeps_self (bind m k).
Proof.
  intros Hm Hk s. unfold bind. specialize (Hm s).
  destruct (m s) as [[a|e] s']; cbn [fst snd] in *; [|exact Hm].
  now rewrite Hk.
Qed.

Lemma best_at_least_bind (b : efloat) (m : M A) (k : A -> M B) :
  best_at_least b m -> (forall a, best_at_least b (k a)) ->
  best_at_least b (bind m k).
Proof.
  intros Hm Hk s Hs. unfold bind. specialize (Hm s Hs).
  destruct (m s) as [[a|e] s']; cbn [fst snd] in *; [|exact Hm].
  now apply Hk.
Qed.

Lemma keeps_best_at_least (b : efloat) (m : M A) :
  keeps_self m -> best_at_least b m.
Proof. intros H s Hs. now rewrite H. Qed.

Lemma never_returns_bind (v : B) (m : M A) (k : A -> M B) :
  (forall a, never_returns v (k a)) -> never_returns v (bind m k).
Proof.
  intros Hk s. unfold bind.
  destruct (m s) as [[a|e] s']; [apply Hk | discriminate].
Qed.

End KeepsSelf.

Lemma keeps_self_get_self : keeps_self get_self.
Proof. now intros s. Qed.

Lemma keeps_self_get_world : keeps_self get_world.
Proof. now intros s. Qed.

Lemma keeps_self_do_call (c : call) : keeps_self (do_call c).
Proof. intros s. unfold do_call. now destruct (faults (snd s) c). Qed.

Lemma keeps_self_py_mod (a b : Z) : keeps_self (py_mod a b).
Proof. intros s. unfold py_mod. now destruct (Z.eqb b 0). Qed.

Lemma keeps_self_try (m : M unit) : keeps_self m -> keeps_self (try_except_pass m).
Proof.
  intros H s. unfold try_except_pass. specialize (H s).
  now destruct (m s) as [[a|e] s'].
Qed.

Create HintDb keeps.

#[local] Hint Resolve keeps_self_ret keeps_self_raise keeps_self_lift
  keeps_self_get_self keeps_self_get_world keeps_self_do_call
  keeps_self_py_mod : keeps.

(** Walks through a method whose parts all keep the object. *)
Ltac keeps :=
  repeat first
    [ solve [auto with keeps]
    | apply keeps_self_bind; [|intros]
    | apply keeps_self_try
    | match goal with
      | |- keeps_self (if ?b then _ else _) => destruct b
      | |- keeps_self (match ?x with _ => _ end) => destruct x
      end ].

Lemma keeps_self_listdir (path : string) : keeps_self (os_listdir path).
Proof. unfold os_listdir. keeps. Qed.

Lemma keeps_self_exists (path : string) : keeps_self (os_path_exists path).
Proof. unfold os_path_exists. keeps. Qed.

Lemma keeps_self_mkdir (path : string) : keeps_self (mkdir path).
Proof. unfold mkdir. keeps. Qed.

Lemma keeps_self_repeat (n : nat) (body : M unit) :
  keeps_self body -> keeps_self (repeat_m n body).
Proof. intros H. induction n; simpl; keeps. Qed.

#[local] Hint Resolve keeps_self_listdir keeps_self_exists keeps_self_mkdir
  : keeps.

Lemma keeps_self_load_logs : keeps_self _load_logs.
Proof. unfold _load_logs. keeps. Qed.

Lemma keeps_self_make_video : keeps_self _make_video.
Proof.
  unfold _make_video. keeps. apply keeps_self_repeat. keeps.
Qed.

Lemma keeps_self_evaluate : keeps_self _evaluate.
Proof. unfold _evaluate. keeps. Qed.

#[local] Hint Resolve keeps_self_load_logs keeps_self_make_video
  keeps_self_evaluate : keeps.

Lemma best_at_least_set (b v : efloat) :
  efloat_le b v -> best_at_least b (set_best_mean_reward v).
Proof. intros H s _. exact H. Qed.

(** Walks through a method that may raise the best mean reward. *)
Ltac grows :=
  repeat first
    [ solve [apply keeps_best_at_least; keeps]
    | apply best_at_least_bind; [|intros]
    | apply best_at_least_set; apply float_gt_le; assumption
    | match goal with
      | |- best_at_least _ (if float_gt ?m ?b then _ else _) =>
          let E := fresh "E" in destruct (float_gt m b) eqn:E
      | |- best_at_least _ (if ?b then _ else _) => destruct b
      | |- best_at_least _ (match ?x with _ => _ end) => destruct x
      end ].

Lemma on_step_evaluate_grows (s : state) :
  efloat_le (best_mean_reward (fst s))
            (best_mean_reward (fst (snd (on_step_evaluate s)))).
Proof.
  destruct s as [self w]. unfold on_step_evaluate.
  unfold bind at 1, get_self at 1. cbn [fst snd].
  match goal with
  | |- efloat_le ?b (best_mean_reward (fst (snd (?m ?s)))) =>
      cut (best_at_least b m);
        [intros Hm; apply (Hm s), efloat_le_refl|]
  end.
  grows.
Qed.

Lemma best_at_least_on_step_evaluate (b : efloat) :
  best_at_least b on_step_evaluate.
Proof.
  intros s Hs. eapply efloat_le_trans; [exact Hs|].
  apply on_step_evaluate_grows.
Qed.

Lemma on_step_grows (s : state) :
  efloat_le (best_mean_reward (fst s))
            (best_mean_reward (fst (snd (_on_step s)))).
Proof.
  cut (best_at_least (best_mean_reward (fst s)) _on_step);
    [intros Hm; apply (Hm s), efloat_le_refl|].
  unfold _on_step.
  repeat first
    [ apply best_at_least_on_step_evaluate
    | solve [apply keeps_best_at_least; keeps]
    | apply best_at_least_bind; [|intros]
    | match goal with
      | |- best_at_least _ (if ?b then _ else _) => destruct b
      | |- best_at_least _ (match ?x with _ => _ end) => destruct x
      end ].
Qed.

Lemma never_false_ret_true : never_returns false (ret true).
Proof. intros s. discriminate. Qed.

Lemma never_false_on_step_evaluate : never_returns false on_step_evaluate.
Proof.
  unfold on_step_evaluate.
  repeat (apply never_returns_bind; intros).
  apply never_false_ret_true.
Qed.

Lemma never_false_on_step : never_returns false _on_step.
Proof.
  unfold _on_step.
  repeat first
    [ apply never_false_ret_true
    | apply never_false_on_step_evaluate
    | apply never_returns_bind; intros
    | match goal with
      | |- never_returns _ (if ?b then _ else _) => destruct b
      | |- never_returns _ (match ?x with _ => _ end) => destruct x
      end ].
Qed.

(** ** Log aggregation *)

Lemma accumulators_pool (log_dir : string) (listing : list dir_entry) :
  fold_left (load_entry log_dir) listing ([], [])
  = (map r (Spec.pool listing), map l (Spec.pool listing)).
Proof. now rewrite load_loop_kept, kept_rows_pool. Qed.

Lemma pool_no_csv (log_dir : string) (listing : list dir_entry) :
  (forall e, In e listing -> is_csv_file log_dir e = false) ->
  Spec.pool listing = [].
Proof.
  intros H. rewrite <- (kept_rows_pool log_dir).
  induction listing as [|e listing IH]; [reflexivity|].
  simpl. unfold kept_rows at 1. rewrite (H e) by now left.
  apply IH. intros e' He'. apply H. now right.
Qed.

(** C3: on an existing log directory [_load_logs] returns, and returns
    what the design describes: of every matching file the first data row
    is dropped and the trailing window of up to four of the remaining rows
    is kept, the windows of all matching files are pooled, and the result
    is the arithmetic mean and the population standard deviation of the
    pooled returns and of the pooled lengths ([None] when the pool is
    empty); neither the object nor the world changes. *)
Theorem load_logs_pools_windows (self : NeptuneCallback) (w : world)
    (listing : list dir_entry) :
  fs w (log_dir self) = Some listing ->
  _load_logs (self, w)
  = (Ok (Spec.aggregate (Spec.pool listing)), (self, w)).
Proof. apply load_logs_run. Qed.

Lemma load_logs_pools_windows_witness :
  fs (Sample.quiet (Some [Sample.six_rows; Sample.notes; Sample.two_rows]))
     (log_dir Sample.callback)
  = Some [Sample.six_rows; Sample.notes; Sample.two_rows]
  /\ _load_logs
       (Sample.callback,
        Sample.quiet (Some [Sample.six_rows; Sample.notes; Sample.two_rows]))
     = (Ok (Spec.aggregate
              (Spec.pool [Sample.six_rows; Sample.notes; Sample.two_rows])),
        (Sample.callback,
         Sample.quiet
           (Some [Sample.six_rows; Sample.notes; Sample.two_rows]))).
Proof.
  split; [reflexivity|].
  apply (load_logs_pools_windows Sample.callback
           (Sample.quiet
              (Some [Sample.six_rows; Sample.notes; Sample.two_rows]))
           [Sample.six_rows; Sample.notes; Sample.two_rows]).
  reflexivity.
Defined.

Example pool_sample :
  Spec.pool [Sample.six_rows; Sample.notes; Sample.two_rows]
  = [{| r := 3; l := 30 |}; {| r := 4; l := 40 |}; {| r := 5; l := 50 |};
     {| r := 6; l := 60 |}; {| r := 9; l := 11 |}]%R.
Proof. reflexivity. Qed.

Lemma window_one (first : row) : Spec.window [first] = [].
Proof. reflexivity. Qed.

Lemma window_two (first second : row) :
  Spec.window [first; second] = [second].
Proof. reflexivity. Qed.

Lemma pool_single (log_dir : string) (e : dir_entry) :
  is_csv_file log_dir e = true ->
  Spec.pool [e] = Spec.window (csv_rows e).
Proof.
  rewrite is_csv_file_matching. intros H.
  unfold Spec.pool. simpl. rewrite H. simpl. apply app_nil_r.
Qed.

Lemma aggregate_singleton (x : row) :
  Spec.aggregate [x] = Some (r x, 0, l x, 0)%R.
Proof.
  unfold Spec.aggregate. rewrite <- !std_population.
  change Spec.arithmetic_mean with Np.mean. simpl map.
  now rewrite !mean_singleton, !std_singleton.
Qed.

(** C2, as the code has it: the first data row of a file is always
    dropped.  For a log directory holding a single matching file,
    [_load_logs] returns "no data" when the file has exactly one data row;
    when it has exactly two, it returns the second row's return and length
    as the means, with both standard deviations [0]. *)
Theorem load_logs_single_file (self : NeptuneCallback) (w : world)
    (e : dir_entry) (first second : row) :
  fs w (log_dir self) = Some [e] ->
  is_csv_file (log_dir self) e = true ->
  (csv_rows e = [first] -> fst (_load_logs (self, w)) = Ok None)
  /\ (csv_rows e = [first; second] ->
      fst (_load_logs (self, w)) = Ok (Some (r second, 0, l second, 0)%R)).
Proof.
  intros Hd He. rewrite (load_logs_run _ _ _ Hd), (pool_single _ _ He).
  split; intros ->; cbn [fst].
  - now rewrite window_one.
  - now rewrite window_two, aggregate_singleton.
Qed.

Lemma load_logs_single_file_witness :
  fst (_load_logs (Sample.callback, Sample.quiet (Some [Sample.two_rows])))
  = Ok (Some (9, 0, 11, 0)%R).
Proof.
  apply (load_logs_single_file Sample.callback
           (Sample.quiet (Some [Sample.two_rows])) Sample.two_rows
           {| r := 5; l := 7 |} {| r := 9; l := 11 |});
    reflexivity.
Defined.

(** C2 as stated fails: a single matching file with exactly one data row,
    of return [5] and length [7], makes [_load_logs] return [None], not
    the means [5] and [7] with zero deviations. *)
Lemma load_logs_one_row_is_no_data :
  fst (_load_logs (Sample.callback, Sample.quiet (Some [Sample.one_row])))
  = Ok None
  /\ fst (_load_logs (Sample.callback, Sample.quiet (Some [Sample.one_row])))
     <> Ok (Some (5, 0, 7, 0)%R).
Proof.
  assert (H : fst (_load_logs
                     (Sample.callback, Sample.quiet (Some [Sample.one_row])))
              = Ok None).
  { rewrite (load_logs_run _ _ [Sample.one_row]) by reflexivity.
    reflexivity. }
  split; [exact H | rewrite H; discriminate].
Qed.

(** C6: when the loop over an existing log directory leaves both
    accumulators empty, as it does when no entry is a CSV file,
    [_load_logs] returns [None] without raising, and an [_on_step] whose
    logging trigger fires then returns at once: no call is made, so no
    training metric is emitted. *)
Theorem no_data_emits_nothing (self : NeptuneCallback) (w : world)
    (listing : list dir_entry) :
  fs w (log_dir self) = Some listing ->
  ((forall e, In e listing -> is_csv_file (log_dir self) e = false) ->
   fold_left (load_entry (log_dir self)) listing ([], []) = ([], []))
  /\ (fold_left (load_entry (log_dir self)) listing ([], []) = ([], []) ->
      _load_logs (self, w) = (Ok None, (self, w))
      /\ (logs_freq self <> 0%Z ->
          (n_calls self mod logs_freq self = 0)%Z ->
          _on_step (self, w) = (Ok true, (self, w))
          /\ filter is_training_metric
               (new_calls w (snd (snd (_on_step (self, w))))) = [])).
Proof.
  intros Hd. split.
  - intros H. rewrite accumulators_pool.
    now rewrite (pool_no_csv _ _ H).
  - rewrite accumulators_pool. intros H.
    assert (Hp : Spec.pool listing = []).
    { injection H as H _. now destruct (Spec.pool listing). }
    assert (Hl : _load_logs (self, w) = (Ok None, (self, w))).
    { rewrite (load_logs_run _ _ _ Hd), Hp. reflexivity. }
    split; [exact Hl|]. intros Hf Hm.
    assert (Hs : _on_step (self, w) = (Ok true, (self, w))).
    { unfold _on_step.
      unfold bind at 1, get_self at 1. cbn [fst snd].
      unfold bind at 1. rewrite py_mod_run by exact Hf.
      rewrite Hm. cbn [Z.eqb]. unfold bind at 1. rewrite Hl. reflexivity. }
    split; [exact Hs|]. rewrite Hs. cbn [snd].
    now rewrite new_calls_same.
Qed.

Lemma no_data_emits_nothing_witness :
  _load_logs (set_n_calls 300 Sample.callback,
              Sample.upload_fails (Some [Sample.notes; Sample.one_row]))
  = (Ok None,
     (set_n_calls 300 Sample.callback,
      Sample.upload_fails (Some [Sample.notes; Sample.one_row])))
  /\ _on_step (set_n_calls 300 Sample.callback,
               Sample.upload_fails (Some [Sample.notes; Sample.one_row]))
     = (Ok true,
        (set_n_calls 300 Sample.callback,
         Sample.upload_fails (Some [Sample.notes; Sample.one_row]))).
Proof.
  destruct (no_data_emits_nothing (set_n_calls 300 Sample.callback)
              (Sample.upload_fails (Some [Sample.notes; Sample.one_row]))
              [Sample.notes; Sample.one_row] eq_refl) as [_ H].
  destruct (H eq_refl) as [Hl Hs]. split; [exact Hl|].
  apply Hs; [discriminate | reflexivity].
Defined.

(** *** The order of the files, on binary64 values *)

Section FileOrder.

Import PrimFloat.








End FileOrder.

(** ** The per-step hook *)

Lemma float_gt_true_iff (m : R) (b : efloat) :
  float_gt m b = true <-> efloat_lt b (Fin m).
Proof.
  destruct b as [|x]; simpl; [tauto|].
  destruct (Rlt_dec x m); split; intros H; try easy; lra.
Qed.

Lemma float_gt_false_iff (m : R) (b : efloat) :
  float_gt m b = false <-> efloat_le (Fin m) b.
Proof.
  destruct b as [|x]; simpl; [easy|].
  destruct (Rlt_dec x m); split; intros H; try easy; lra.
Qed.

Lemma no_save_in_video (self : NeptuneCallback) :
  filter is_model_save (video_calls self) = [].
Proof.
  unfold video_calls. cbv zeta. rewrite !filter_app. cbn [filter is_model_save app].
  rewrite app_nil_r.
  induction (Z.to_nat (video_length self + 1)) as [|n IH]; [reflexivity|].
  exact IH.
Qed.

Lemma no_save_in_training_metrics (logs : R * R * R * R) :
  filter is_model_save (training_metrics logs) = [].
Proof. now destruct logs as [[[a b] c] d]. Qed.

Lemma no_save_in_evaluation_metrics (stats : R * R * R * R) :
  filter is_model_save (evaluation_metrics stats) = [].
Proof. now destruct stats as [[[a b] c] d]. Qed.

Lemma saves_of_evaluation (self : NeptuneCallback) (w : world) :
  filter is_model_save (evaluation_calls self w)
  = if improves self w
    then [model_save (Py.os_path_join (log_dir self) "best_model.plk")]
    else [].
Proof.
  unfold evaluation_calls. rewrite !filter_app.
  rewrite no_save_in_evaluation_metrics.
  replace (filter is_model_save
             (if make_video self then video_calls self else []))
    with (@nil call)
    by (destruct (make_video self); [now rewrite no_save_in_video | easy]).
  cbn [filter is_model_save app].
  now destruct (improves self w).
Qed.

Lemma on_step_skip_logs (self : NeptuneCallback) (w : world) :
  logs_freq self <> 0%Z ->
  (n_calls self mod logs_freq self <> 0)%Z ->
  _on_step (self, w) = on_step_evaluate (self, w).
Proof.
  intros Hf Hm. unfold _on_step.
  unfold bind at 1, get_self at 1. cbn [fst snd].
  unfold bind at 1. rewrite py_mod_run by exact Hf.
  apply Z.eqb_neq in Hm. now rewrite Hm.
Qed.

Lemma load_logs_some (self : NeptuneCallback) (w : world)
    (logs : R * R * R * R) :
  fst (_load_logs (self, w)) = Ok (Some logs) ->
  exists listing,
    fs w (log_dir self) = Some listing
    /\ Spec.aggregate (Spec.pool listing) = Some logs.
Proof.
  intros H. destruct (fs w (log_dir self)) as [listing|] eqn:Hd.
  - exists listing. split; [reflexivity|].
    rewrite (load_logs_run _ _ _ Hd) in H. now injection H.
  - rewrite (load_logs_missing _ _ Hd) in H. discriminate.
Qed.

(** [_on_step] when the evaluation trigger fires and the logging trigger
    does not end the call: the calls [before] are those of the logging
    trigger. *)
Lemma on_step_reaches_evaluation (self : NeptuneCallback) (w : world) :
  no_faults w ->
  logs_freq self <> 0%Z ->
  evaluate_freq self <> 0%Z ->
  (n_calls self mod evaluate_freq self = 0)%Z ->
  (n_calls self mod logs_freq self <> 0)%Z
  \/ (exists logs, fst (_load_logs (self, w)) = Ok (Some logs)) ->
  exists before,
    filter is_model_save before = []
    /\ _on_step (self, w)
       = (Ok true, after_evaluation self (add_trace before w)).
Proof.
  intros H Hl He Hm Hlogs.
  destruct (Z.eq_dec (n_calls self mod logs_freq self) 0) as [Hz|Hz].
  - destruct Hlogs as [Hn|[logs Hlogs]]; [contradiction|].
    destruct (load_logs_some _ _ _ Hlogs) as [listing [Hd Ha]].
    exists (training_metrics logs). split; [apply no_save_in_training_metrics|].
    rewrite (on_step_run _ _ _ H Hl Hd), Hz, Ha. cbn [Z.eqb].
    rewrite on_step_evaluate_run by (try apply no_faults_add_trace; assumption).
    now rewrite Hm.
  - exists []. split; [reflexivity|].
    rewrite (on_step_skip_logs _ _ Hl Hz), add_trace_nil.
    rewrite on_step_evaluate_run by assumption.
    now rewrite Hm.
Qed.

(** C4: in an [_on_step] that reaches its evaluation (the evaluation
    trigger fires, no call fails, and the logging trigger either does not
    fire or finds data), a mean evaluation reward strictly above the best
    so far causes exactly one [model.save], to [best_model.plk] in the log
    directory, and becomes the new best; a mean reward equal to or below
    the best causes no [model.save] and leaves the best as it is. *)
Theorem checkpoint_iff_strict_improvement (self : NeptuneCallback)
    (w : world) :
  no_faults w ->
  logs_freq self <> 0%Z ->
  evaluate_freq self <> 0%Z ->
  (n_calls self mod evaluate_freq self = 0)%Z ->
  (n_calls self mod logs_freq self <> 0)%Z
  \/ (exists logs, fst (_load_logs (self, w)) = Ok (Some logs)) ->
  let mean_reward := Np.mean (fst (policy_eval w)) in
  let after := snd (_on_step (self, w)) in
  (efloat_lt (best_mean_reward self) (Fin mean_reward) ->
   filter is_model_save (new_calls w (snd after))
   = [model_save (Py.os_path_join (log_dir self) "best_model.plk")]
   /\ best_mean_reward (fst after) = Fin mean_reward)
  /\ (efloat_le (Fin mean_reward) (best_mean_reward self) ->
      filter is_model_save (new_calls w (snd after)) = []
      /\ best_mean_reward (fst after) = best_mean_reward self).
Proof.
  intros H Hl He Hm Hlogs mean_reward after.
  destruct (on_step_reaches_evaluation _ _ H Hl He Hm Hlogs)
    as [before [Hb Hs]].
  subst after. rewrite Hs. unfold after_evaluation. cbn [fst snd].
  rewrite add_trace_app, new_calls_add_trace, filter_app, Hb.
  rewrite saves_of_evaluation. unfold improves.
  cbn [policy_eval add_trace app]. fold mean_reward.
  split; intros Hc.
  - apply float_gt_true_iff in Hc. rewrite Hc. now split.
  - apply float_gt_false_iff in Hc. rewrite Hc. now split.
Qed.

Lemma checkpoint_iff_strict_improvement_witness :
  filter is_model_save
    (new_calls (Sample.quiet (Some [Sample.six_rows]))
       (snd (snd (_on_step (set_n_calls 10000 Sample.callback,
                            Sample.quiet (Some [Sample.six_rows]))))))
  = [model_save "logs/best_model.plk"]
  /\ best_mean_reward
       (fst (snd (_on_step (set_n_calls 10000 Sample.callback,
                            Sample.quiet (Some [Sample.six_rows])))))
     = Fin (Np.mean [10; 20; 30; 40; 50]%R).
Proof.
  refine (proj1 (checkpoint_iff_strict_improvement
                   (set_n_calls 10000 Sample.callback)
                   (Sample.quiet (Some [Sample.six_rows]))
                   (fun c => eq_refl) _ _ eq_refl _) I).
  - discriminate.
  - discriminate.
  - right. eexists.
    rewrite (load_logs_run _ _ [Sample.six_rows]) by reflexivity.
    reflexivity.
Defined.

(** C1 at a step where both triggers fire and the log directory holds no
    data: with the default frequencies, at step 10000 and with an empty
    log directory, [_on_step] returns [True] without a single call, so the
    evaluation that the evaluation trigger alone would run is skipped. *)
Theorem both_triggers_without_data_skip_evaluation :
  let self := set_n_calls 10000 Sample.callback in
  let w := Sample.quiet (Some []) in
  (n_calls self mod logs_freq self = 0)%Z
  /\ (n_calls self mod evaluate_freq self = 0)%Z
  /\ fst (_load_logs (self, w)) = Ok None
  /\ _on_step (self, w) = (Ok true, (self, w))
  /\ new_calls w (snd (snd (_on_step (self, w)))) = []
  /\ new_calls w (snd (snd (on_step_evaluate (self, w))))
     = evaluation_calls self w
  /\ In (evaluate_policy 5 false true true) (evaluation_calls self w).
Proof.
  intros self w.
  assert (Hs : _on_step (self, w) = (Ok true, (self, w))).
  { rewrite (on_step_run _ _ []); [reflexivity | | discriminate | reflexivity].
    intros c. reflexivity. }
  split; [reflexivity|]. split; [reflexivity|].
  split; [now rewrite (load_logs_run _ _ []) by reflexivity|].
  split; [exact Hs|]. split; [now rewrite Hs|]. split.
  - rewrite on_step_evaluate_run; [| intros c; reflexivity | discriminate].
    change (Z.eqb (n_calls self mod evaluate_freq self) 0) with true.
    cbv iota. unfold after_evaluation. cbn [snd].
    apply new_calls_add_trace.
  - right. left. reflexivity.
Qed.

(** When both triggers fire, no call fails and the log directory holds
    data, one [_on_step] emits the four training metrics and then runs the
    evaluation with its four metrics. *)
Theorem both_triggers_with_data (self : NeptuneCallback) (w : world)
    (logs : R * R * R * R) :
  no_faults w ->
  logs_freq self <> 0%Z ->
  evaluate_freq self <> 0%Z ->
  (n_calls self mod logs_freq self = 0)%Z ->
  (n_calls self mod evaluate_freq self = 0)%Z ->
  fst (_load_logs (self, w)) = Ok (Some logs) ->
  fst (_on_step (self, w)) = Ok true
  /\ new_calls w (snd (snd (_on_step (self, w))))
     = (training_metrics logs
        ++ evaluation_calls self w)%list.
Proof.
  intros H Hl He Hml Hme Hlogs.
  destruct (load_logs_some _ _ _ Hlogs) as [listing [Hd Ha]].
  rewrite (on_step_run _ _ _ H Hl Hd), Hml, Ha. cbn [Z.eqb].
  rewrite on_step_evaluate_run
    by (try apply no_faults_add_trace; assumption).
  rewrite Hme. cbn [Z.eqb fst snd]. split; [reflexivity|].
  unfold after_evaluation. cbn [snd].
  rewrite add_trace_app. apply new_calls_add_trace.
Qed.

Lemma both_triggers_with_data_witness :
  new_calls (Sample.quiet (Some [Sample.two_rows]))
    (snd (snd (_on_step (set_n_calls 10000 Sample.callback,
                         Sample.quiet (Some [Sample.two_rows])))))
  = (training_metrics (9, 0, 11, 0)%R
     ++ evaluation_calls (set_n_calls 10000 Sample.callback)
                         (Sample.quiet (Some [Sample.two_rows])))%list.
Proof.
  refine (proj2 (both_triggers_with_data
                   (set_n_calls 10000 Sample.callback)
                   (Sample.quiet (Some [Sample.two_rows]))
                   (9, 0, 11, 0)%R
                   (fun c => eq_refl) _ _ eq_refl eq_refl _)).
  - discriminate.
  - discriminate.
  - rewrite (load_logs_run _ _ [Sample.two_rows]) by reflexivity.
    cbn [fst]. change (Spec.pool [Sample.two_rows]) with [{| r := 9; l := 11 |}]%R.
    now rewrite aggregate_singleton.
Defined.

(** *** Methods that leave the best mean reward alone *)

Lemma keeps_self_keeps_best {A} (m : M A) : keeps_self m -> keeps_best m.
Proof. intros H s. now rewrite H. Qed.

Lemma keeps_best_bind {A B} (m : M A) (k : A -> M B) :
  keeps_best m -> (forall a, keeps_best (k a)) -> keeps_best (bind m k).
Proof.
  intros Hm Hk s. unfold bind. specialize (Hm s).
  destruct (m s) as [[a|e] s']; cbn [fst snd] in *; [|exact Hm].
  now rewrite Hk.
Qed.

Lemma keeps_best_try (m : M unit) :
  keeps_best m -> keeps_best (try_except_pass m).
Proof.
  intros H s. unfold try_except_pass. specialize (H s).
  now destruct (m s) as [[a|e] s'].
Qed.

Lemma keeps_best_set_logger (v : option neptune_project) :
  keeps_best (set_neptune_logger v).
Proof. now intros s. Qed.

Lemma init_callback_keeps_best : keeps_best _init_callback.
Proof.
  unfold _init_callback.
  repeat first
    [ solve [apply keeps_self_keeps_best; keeps]
    | apply keeps_best_set_logger
    | apply keeps_best_bind; [|intros]
    | apply keeps_best_try
    | match goal with
      | |- keeps_best (if ?b then _ else _) => destruct b
      | |- keeps_best (match ?x with _ => _ end) => destruct x
      end ].
Qed.

(** *** The calls a method can make *)

Section CallsOnly.

Variable P : call -> Prop.

Lemma calls_only_silent {A} (m : M A) :
  (forall s, trace (snd (snd (m s))) = trace (snd s)) -> calls_only P m.
Proof.
  intros H s. exists []. rewrite H, app_nil_r. now split.
Qed.

Lemma calls_only_do_call (c : call) : P c -> calls_only P (do_call c).
Proof.
  intros Hc s. unfold do_call. destruct (faults (snd s) c); cbn [fst snd].
  - exists []. rewrite app_nil_r. now split.
  - exists [c]. split; [reflexivity | now constructor].
Qed.

Lemma calls_only_bind {A B} (m : M A) (k : A -> M B) :
  calls_only P m -> (forall a, calls_only P (k a)) ->
  calls_only P (bind m k).
Proof.
  intros Hm Hk s. unfold bind. destruct (Hm s) as [cs [Ht Hcs]].
  destruct (m s) as [[a|e] s']; cbn [fst snd] in *.
  - destruct (Hk a s') as [cs' [Ht' Hcs']].
    exists (cs ++ cs')%list. rewrite Ht', Ht, app_assoc.
    split; [reflexivity | now apply Forall_app].
  - now exists cs.
Qed.

Lemma calls_only_bind_raise {A B} (e : exn) (k : A -> M B) :
  calls_only P (bind (lift (Raise e)) k).
Proof. now apply calls_only_silent. Qed.

Lemma calls_only_try (m : M unit) :
  calls_only P m -> calls_only P (try_except_pass m).
Proof.
  intros H s. unfold try_except_pass. specialize (H s).
  now destruct (m s) as [[a|e] s'].
Qed.

Lemma calls_only_mkdir (path : string) :
  P (os_mkdir path) -> calls_only P (mkdir path).
Proof.
  intros H. unfold mkdir. apply calls_only_bind.
  - now apply calls_only_do_call.
  - intros _. now apply calls_only_silent.
Qed.

End CallsOnly.

Lemma new_calls_of_trace (w w' : world) (cs : list call) :
  trace w' = (trace w ++ cs)%list -> new_calls w w' = cs.
Proof.
  intros H. unfold new_calls.
  rewrite H, skipn_app, Nat.sub_diag, skipn_all. reflexivity.
Qed.

(** With an empty mapping [_init_callback] makes no upload of the
    hyperparameter text, whatever fails. *)
Lemma init_callback_calls_empty_mapping (self : NeptuneCallback) (w : world) :
  model_parameter self = [] ->
  Forall not_model_params
         (new_calls w (snd (snd (_init_callback (self, w))))).
Proof.
  intros He.
  cut (exists cs,
          trace (snd (snd (_init_callback (self, w))))
          = (trace w ++ cs)%list /\ Forall not_model_params cs).
  { intros [cs [Ht Hcs]]. now rewrite (new_calls_of_trace _ _ _ Ht). }
  unfold _init_callback. unfold bind at 1, get_self at 1. cbn [fst snd].
  match goal with
  | |- exists cs, trace (snd (snd (?m ?s))) = _ /\ _ =>
      cut (calls_only not_model_params m); [intros Hm; exact (Hm s)|]
  end.
  rewrite He. cbn [model_params_text map reduce].
  repeat first
    [ apply calls_only_bind_raise
    | apply calls_only_do_call; intros ? ?; discriminate
    | apply calls_only_mkdir; intros ? ?; discriminate
    | apply calls_only_silent; intros ?; reflexivity
    | apply calls_only_bind; [|intros]
    | apply calls_only_try
    | match goal with
      | |- calls_only _ (if ?b then _ else _) => destruct b
      | |- calls_only _ (match ?x with _ => _ end) => destruct x
      end ].
Qed.

Lemma train_sorted (steps : list (Z * world)) (self : NeptuneCallback) :
  StronglySorted efloat_le
    (map best_mean_reward (self :: train self steps)).
Proof.
  revert self. induction steps as [|[n w] steps IH]; intros self.
  - repeat constructor.
  - cbn [train].
    pose proof (on_step_grows (set_n_calls n self, w)) as Hg.
    cbn [fst set_n_calls best_mean_reward] in Hg.
    destruct (_on_step (set_n_calls n self, w)) as [[v|e] [self' w']];
      cbn [fst snd] in Hg.
    + specialize (IH self'). cbn [map] in *.
      constructor; [exact IH|].
      constructor; [exact Hg|].
      apply StronglySorted_inv in IH. destruct IH as [_ IH].
      eapply Forall_impl; [|exact IH].
      intros b Hb. eapply efloat_le_trans; eassumption.
    + cbn [map]. repeat constructor. exact Hg.
Qed.

(** C5: [__init__] sets [best_mean_reward] to minus infinity;
    [_init_callback] does not touch it; no [_on_step] lowers it, whatever
    the world does and whatever fails; and so its values after the
    successive hook invocations of a training run form a non-decreasing
    sequence. *)
Theorem best_mean_reward_never_decreases :
  (forall model environment_name neptune_account_name project_name
          experiment_name log_dir random_seed model_parameter comment
          logs_freq evaluate_freq video_length make_video,
      best_mean_reward
        (__init__ model environment_name neptune_account_name project_name
                  experiment_name log_dir random_seed model_parameter comment
                  logs_freq evaluate_freq video_length make_video)
      = NegInf)
  /\ (forall s : state,
         best_mean_reward (fst (snd (_init_callback s)))
         = best_mean_reward (fst s))
  /\ (forall s : state,
         efloat_le (best_mean_reward (fst s))
                   (best_mean_reward (fst (snd (_on_step s)))))
  /\ (forall (self : NeptuneCallback) (steps : list (Z * world)),
         StronglySorted efloat_le
           (map best_mean_reward (self :: train self steps))).
Proof.
  split; [reflexivity|]. split; [exact init_callback_keeps_best|]. split.
  - exact on_step_grows.
  - intros self steps. apply train_sorted.
Qed.

(** C9: [_on_step] never returns [False], whatever the step count, the
    world and the failures; and it does return, with [True], whenever no
    call fails, both frequencies are non-zero and the log aggregation
    returns when the logging trigger fires, be it with data or with "no
    data". *)
Theorem on_step_returns_true :
  (forall s : state, fst (_on_step s) <> Ok false)
  /\ (forall (self : NeptuneCallback) (w : world),
         no_faults w ->
         logs_freq self <> 0%Z ->
         evaluate_freq self <> 0%Z ->
         ((n_calls self mod logs_freq self = 0)%Z ->
          exists logs, fst (_load_logs (self, w)) = Ok logs) ->
         fst (_on_step (self, w)) = Ok true).
Proof.
  split; [exact never_false_on_step|].
  intros self w H Hl He Hd.
  destruct (Z.eq_dec (n_calls self mod logs_freq self) 0) as [Hz|Hz].
  - destruct (Hd Hz) as [logs Hlogs].
    destruct (fs w (log_dir self)) as [listing|] eqn:E;
      [|rewrite (load_logs_missing _ _ E) in Hlogs; discriminate].
    rewrite (on_step_run _ _ _ H Hl E), Hz. cbn [Z.eqb].
    destruct (Spec.aggregate (Spec.pool listing)); [|reflexivity].
    now rewrite on_step_evaluate_run
      by (try apply no_faults_add_trace; assumption).
  - rewrite (on_step_skip_logs _ _ Hl Hz).
    now rewrite on_step_evaluate_run by assumption.
Qed.

Lemma on_step_returns_true_witness :
  fst (_on_step (set_n_calls 200 Sample.callback,
                 Sample.quiet (Some [Sample.notes])))
  = Ok true.
Proof.
  apply (proj2 on_step_returns_true (set_n_calls 200 Sample.callback)
           (Sample.quiet (Some [Sample.notes]))).
  - intros c. reflexivity.
  - discriminate.
  - discriminate.
  - intros _. exists None.
    rewrite (load_logs_run _ _ [Sample.notes]) by reflexivity.
    reflexivity.
Defined.

(** ** Initialisation, again *)

Lemma new_calls_after_init (self : NeptuneCallback) (w : world) :
  new_calls w (snd (after_init self w)) = init_calls self w.
Proof.
  unfold after_init. cbn [snd].
  destruct (fs w (log_dir self)); [apply new_calls_add_trace|].
  exact (new_calls_add_trace (init_calls self w) w).
Qed.

Lemma log_dir_after_init (self : NeptuneCallback) (w : world) :
  fs (snd (after_init self w)) (log_dir self) <> None.
Proof.
  unfold after_init. cbn [snd].
  destruct (fs w (log_dir self)) eqn:E.
  - cbn [fs add_trace]. now rewrite E.
  - cbn [fs make_dir]. now rewrite String.eqb_refl.
Qed.

(** C8: whatever the outcome of the upload of the hyperparameter text,
    failure included, [_init_callback] completes as long as its other
    calls do: the failure is swallowed, and what follows the [try] block
    is carried out, namely the upload of the log directory path, that of
    the comment if there is one, and the creation of the log directory if
    it is missing. *)
Theorem init_survives_upload_failure (self : NeptuneCallback) (w : world) :
  only_model_params_may_fail w ->
  let out := _init_callback (self, w) in
  fst out = Ok tt
  /\ new_calls w (snd (snd out))
     = ([neptune_init (neptune_account_name self ++ "/" ++ project_name self);
         neptune_create_experiment (experiment_name self);
         neptune_append_tags (session_tags self)]
        ++ model_params_upload self w
        ++ [neptune_log_text "Path to local files" (log_dir self)]
        ++ match comment self with
           | Some c => [neptune_log_text "Comment" c]
           | None => []
           end
        ++ match fs w (log_dir self) with
           | Some _ => []
           | None => [os_mkdir (log_dir self)]
           end)%list
  /\ (forall text,
         model_params_text (model_parameter self) = Ok text ->
         faults w (neptune_log_text "Model Params" text) = true ->
         model_params_upload self w = [])
  /\ fs (snd (snd out)) (log_dir self) <> None.
Proof.
  intros H out. subst out. rewrite (init_callback_run _ _ H). cbn [fst snd].
  split; [reflexivity|]. split; [apply new_calls_after_init|].
  split; [|apply log_dir_after_init].
  intros text Ht Hf. unfold model_params_upload. now rewrite Ht, Hf.
Qed.

Lemma upload_fails_only_upload (listing : option (list dir_entry)) :
  only_model_params_may_fail (Sample.upload_fails listing).
Proof.
  intros c H. destruct c; try discriminate.
  cbn in H. apply String.eqb_eq in H. subst. now eexists.
Defined.

Lemma init_survives_upload_failure_witness :
  faults (Sample.upload_fails None)
         (neptune_log_text "Model Params"
            ("lr: 0.1" ++ "gamma: 0.99" ++ Py.nl)) = true
  /\ fst (_init_callback (Sample.described, Sample.upload_fails None)) = Ok tt
  /\ new_calls (Sample.upload_fails None)
       (snd (snd (_init_callback (Sample.described,
                                  Sample.upload_fails None))))
     = [neptune_init "team/mujoco";
        neptune_create_experiment "run-1";
        neptune_append_tags ["PPO"; "Hopper-v2"; "seed: 7"];
        neptune_log_text "Path to local files" "logs";
        neptune_log_text "Comment" "baseline";
        os_mkdir "logs"].
Proof.
  split; [reflexivity|].
  destruct (init_survives_upload_failure Sample.described
              (Sample.upload_fails None) (upload_fails_only_upload None))
    as [Hok [Hcalls _]].
  split; [exact Hok | exact Hcalls].
Defined.

(** C10: [__init__] turns a missing hyperparameter mapping into the empty
    one; for an empty mapping building the text raises [TypeError], which
    the [try] block swallows, so [_init_callback] never uploads ["Model
    Params"], whatever else happens; and it still completes when its
    other calls do. *)
Theorem empty_model_parameter_never_uploaded :
  (forall model environment_name neptune_account_name project_name
          experiment_name log_dir random_seed comment
          logs_freq evaluate_freq video_length make_video,
      model_parameter
        (__init__ model environment_name neptune_account_name project_name
                  experiment_name log_dir random_seed None comment
                  logs_freq evaluate_freq video_length make_video)
      = [])
  /\ model_params_text [] = Raise TypeError
  /\ (forall (self : NeptuneCallback) (w : world),
         model_parameter self = [] ->
         (forall text,
             ~ In (neptune_log_text "Model Params" text)
                  (new_calls w (snd (snd (_init_callback (self, w))))))
         /\ (only_model_params_may_fail w ->
             fst (_init_callback (self, w)) = Ok tt)).
Proof.
  split; [reflexivity|]. split; [reflexivity|].
  intros self w He. split.
  - intros text Hin.
    pose proof (init_callback_calls_empty_mapping self w He) as Hall.
    rewrite Forall_forall in Hall. now apply (Hall _ Hin text).
  - intros H. now rewrite (init_callback_run _ _ H).
Qed.

Lemma empty_model_parameter_never_uploaded_witness :
  (forall text,
      ~ In (neptune_log_text "Model Params" text)
           (new_calls (Sample.quiet None)
              (snd (snd (_init_callback (Sample.callback,
                                         Sample.quiet None))))))
  /\ fst (_init_callback (Sample.callback, Sample.quiet None)) = Ok tt.
Proof.
  destruct (proj2 (proj2 empty_model_parameter_never_uploaded)
              Sample.callback (Sample.quiet None) eq_refl) as [Hno Hok].
  split; [exact Hno|]. apply Hok. intros c H. discriminate.
Defined.

(** A failure to open the Neptune session leaves [_init_callback] as an
    exception, before anything else is done. *)
Theorem init_propagates_session_failure (self : NeptuneCallback)
    (w : world) :
  faults w (neptune_init
              (neptune_account_name self ++ "/" ++ project_name self))
  = true ->
  _init_callback (self, w)
  = (Raise (ExternalError
              (neptune_init
                 (neptune_account_name self ++ "/" ++ project_name self))),
     (self, w)).
Proof.
  intros H. unfold _init_callback.
  unfold bind at 1, get_self at 1. cbn [fst snd].
  unfold bind at 1, do_call at 1. cbn [fst snd]. now rewrite H.
Qed.

Lemma init_propagates_session_failure_witness :
  _init_callback (Sample.described, Sample.session_fails)
  = (Raise (ExternalError (neptune_init "team/mujoco")),
     (Sample.described, Sample.session_fails)).
Proof.
  apply (init_propagates_session_failure Sample.described
           Sample.session_fails).
  reflexivity.
Defined.

(** ** Sanity checks of the Python builtins *)

Example str_10000 : Py.str 10000 = "10000".
Proof. reflexivity. Qed.

Example str_negative : Py.str (-7) = "-7".
Proof. reflexivity. Qed.

Example join_plain : Py.os_path_join "logs" "0.monitor.csv" = "logs/0.monitor.csv".
Proof. reflexivity. Qed.

Example join_trailing_slash : Py.os_path_join "logs/" "a.csv" = "logs/a.csv".
Proof. reflexivity. Qed.

Example last_four : Py.str_last 4 "logs/0.monitor.csv" = ".csv".
Proof. reflexivity. Qed.

Example last_four_of_short : Py.str_last 4 "csv" = "csv".
Proof. reflexivity. Qed.

Example slice_last_of_six :
  Py.slice_last (Nat.min 4 5) (Py.slice_from_1 [0; 1; 2; 3; 4; 5]%nat)
  = [2; 3; 4; 5]%nat.
Proof. reflexivity. Qed.

Example slice_last_of_three :
  Py.slice_last (Nat.min 4 2) (Py.slice_from_1 [0; 1; 2]%nat) = [1; 2]%nat.
Proof. reflexivity. Qed.

Example directory_named_csv_is_skipped :
  is_csv_file "logs" {| name := "old.csv"; is_file := false; csv_rows := [] |}
  = false.
Proof. reflexivity. Qed.

Example modulo_by_zero_raises :
  fst (_on_step (__init__ "PPO" "Hopper-v2" "team" "mujoco" "run-1" "logs"
                          None None None 0 10000 1000 false,
                 Sample.quiet (Some [])))
  = Raise ZeroDivisionError.
Proof. reflexivity. Qed.

(** * Further properties of the code *)

(** ** [_load_logs] *)

(** The test of line 80 depends on the entry alone, not on the log
    directory it is joined to: an entry is read exactly when it is a
    regular file whose name ends in [.csv]. *)
Theorem csv_test_depends_on_name_only (log_dir : string) (e : dir_entry) :
  is_csv_file log_dir e = true
  <-> is_file e = true /\ exists stem, name e = stem ++ ".csv".
Proof.
  rewrite is_csv_file_matching. unfold Spec.matching.
  rewrite andb_true_iff, has_suffix_ends_with. reflexivity.
Qed.

Lemma csv_file_regular_named (log_dir : string) (e : dir_entry) :
  is_csv_file log_dir e = true ->
  is_file e = true /\ exists stem, name e = stem ++ ".csv".
Proof.
  rewrite is_csv_file_matching. unfold Spec.matching.
  now rewrite andb_true_iff, has_suffix_ends_with.
Qed.

Lemma kept_rows_app (log_dir : string) (xs ys : list dir_entry) :
  flat_map (kept_rows log_dir) (xs ++ ys)
  = (flat_map (kept_rows log_dir) xs ++ flat_map (kept_rows log_dir) ys)%list.
Proof. apply flat_map_app. Qed.

Lemma load_logs_kept (self : NeptuneCallback) (w : world)
    (listing : list dir_entry) :
  fs w (log_dir self) = Some listing ->
  fst (_load_logs (self, w))
  = Ok (Spec.aggregate (flat_map (kept_rows (log_dir self)) listing)).
Proof.
  intros H. now rewrite (load_logs_run _ _ _ H), kept_rows_pool.
Qed.

Lemma kept_rows_few (log_dir : string) (e : dir_entry) :
  (List.length (csv_rows e) <= 1)%nat -> kept_rows log_dir e = [].
Proof.
  intros H. unfold kept_rows. destruct (is_csv_file log_dir e); [|reflexivity].
  destruct (csv_rows e) as [|x [|y rows]]; [reflexivity | reflexivity |].
  simpl in H. lia.
Qed.

(** Entries that are not regular files, whose name does not end in
    [.csv], or that hold at most one data row have no influence on
    [_load_logs]: the result is the same with the entry and without it. *)
Theorem load_logs_ignores_silent_entries (self : NeptuneCallback)
    (w w' : world) (before after : list dir_entry) (e : dir_entry) :
  fs w (log_dir self) = Some (before ++ e :: after)%list ->
  fs w' (log_dir self) = Some (before ++ after)%list ->
  is_file e = false
  \/ (forall stem, name e <> stem ++ ".csv")
  \/ (List.length (csv_rows e) <= 1)%nat ->
  fst (_load_logs (self, w)) = fst (_load_logs (self, w')).
Proof.
  intros Hd Hd' He.
  rewrite (load_logs_kept _ _ _ Hd), (load_logs_kept _ _ _ Hd').
  rewrite !kept_rows_app. cbn [flat_map].
  assert (Hk : kept_rows (log_dir self) e = []).
  { destruct He as [He|[He|He]].
    - unfold kept_rows.
      destruct (is_csv_file (log_dir self) e) eqn:E; [|reflexivity].
      apply csv_file_regular_named in E. destruct E as [E _].
      congruence.
    - unfold kept_rows.
      destruct (is_csv_file (log_dir self) e) eqn:E; [|reflexivity].
      apply csv_file_regular_named in E.
      destruct E as [_ [stem E]]. now destruct (He stem).
    - now apply kept_rows_few. }
  now rewrite Hk.
Qed.

Lemma load_logs_ignores_silent_entries_witness :
  fst (_load_logs
         (Sample.callback,
          Sample.quiet (Some [Sample.six_rows; MoreSamples.csv_directory;
                              Sample.two_rows])))
  = fst (_load_logs
           (Sample.callback,
            Sample.quiet (Some [Sample.six_rows; Sample.two_rows]))).
Proof.
  apply (load_logs_ignores_silent_entries Sample.callback
           (Sample.quiet (Some [Sample.six_rows; MoreSamples.csv_directory;
                                Sample.two_rows]))
           (Sample.quiet (Some [Sample.six_rows; Sample.two_rows]))
           [Sample.six_rows] [Sample.two_rows] MoreSamples.csv_directory).
  - reflexivity.
  - reflexivity.
  - left. reflexivity.
Defined.

Lemma kept_rows_recent (log_dir : string) (e : dir_entry) (first : row)
    (older recent : list row) :
  csv_rows e = (first :: older ++ recent)%list ->
  List.length recent = 4%nat ->
  kept_rows log_dir e = if is_csv_file log_dir e then recent else [].
Proof.
  intros Hr Hl. unfold kept_rows.
  destruct (is_csv_file log_dir e); [|reflexivity].
  rewrite Hr. cbv zeta. unfold Py.slice_from_1. cbn [skipn].
  rewrite length_app, Hl.
  replace (Nat.min 4 (List.length older + 4)) with 4%nat by lia.
  unfold Py.slice_last. rewrite length_app, Hl.
  replace (List.length older + 4 - 4)%nat with (List.length older + 0)%nat
    by lia.
  now rewrite skipn_app, Nat.add_0_r, skipn_all, Nat.sub_diag.
Qed.

(** Of a file with at least five data rows only the last four count:
    two files of the same name and kind whose data rows end with the same
    four rows are interchangeable for [_load_logs], whatever their first
    row and the rows in between. *)
Theorem load_logs_reads_last_four_only (self : NeptuneCallback)
    (w w' : world) (before after : list dir_entry) (e e' : dir_entry)
    (first first' : row) (older older' recent : list row) :
  fs w (log_dir self) = Some (before ++ e :: after)%list ->
  fs w' (log_dir self) = Some (before ++ e' :: after)%list ->
  name e' = name e ->
  is_file e' = is_file e ->
  csv_rows e = (first :: older ++ recent)%list ->
  csv_rows e' = (first' :: older' ++ recent)%list ->
  List.length recent = 4%nat ->
  fst (_load_logs (self, w)) = fst (_load_logs (self, w')).
Proof.
  intros Hd Hd' Hn Hf Hr Hr' Hl.
  rewrite (load_logs_kept _ _ _ Hd), (load_logs_kept _ _ _ Hd').
  rewrite !kept_rows_app. cbn [flat_map].
  rewrite (kept_rows_recent _ _ _ _ _ Hr Hl).
  rewrite (kept_rows_recent _ _ _ _ _ Hr' Hl).
  unfold is_csv_file. now rewrite Hn, Hf.
Qed.

Lemma load_logs_reads_last_four_only_witness :
  fst (_load_logs
         (Sample.callback,
          Sample.quiet (Some [MoreSamples.eight_rows; Sample.two_rows])))
  = fst (_load_logs
           (Sample.callback,
            Sample.quiet (Some [MoreSamples.same_tail; Sample.two_rows]))).
Proof.
  apply (load_logs_reads_last_four_only Sample.callback
           (Sample.quiet (Some [MoreSamples.eight_rows; Sample.two_rows]))
           (Sample.quiet (Some [MoreSamples.same_tail; Sample.two_rows]))
           [] [Sample.two_rows] MoreSamples.eight_rows MoreSamples.same_tail
           {| r := 0; l := 1 |} {| r := 100; l := 100 |}
           [{| r := 1; l := 2 |}; {| r := 2; l := 3 |}; {| r := 3; l := 4 |}]
           []
           [{| r := 4; l := 5 |}; {| r := 5; l := 6 |};
            {| r := 6; l := 7 |}; {| r := 7; l := 8 |}])%R;
    reflexivity.
Defined.

Lemma kept_rows_at_most_four (log_dir : string) (e : dir_entry) :
  (List.length (kept_rows log_dir e)
   <= if is_csv_file log_dir e then 4 else 0)%nat.
Proof.
  unfold kept_rows. destruct (is_csv_file log_dir e); [|simpl; lia].
  cbv zeta. generalize (Py.slice_from_1 (csv_rows e)). intros rows.
  unfold Py.slice_last.
  destruct (Nat.min 4 (List.length rows)) eqn:E.
  - destruct rows; [simpl; lia | simpl in E; discriminate].
  - rewrite length_skipn. lia.
Qed.

(** The two accumulators of the loop of [_load_logs] always have the same
    length, and hold at most four values for each CSV file of the
    directory. *)
Theorem load_logs_accumulators_bounded (log_dir : string)
    (listing : list dir_entry) :
  let acc := fold_left (load_entry log_dir) listing ([], []) in
  List.length (fst acc) = List.length (snd acc)
  /\ (List.length (fst acc)
      <= 4 * List.length (filter (is_csv_file log_dir) listing))%nat.
Proof.
  cbv zeta. rewrite load_loop_kept. cbn [fst snd app].
  rewrite !length_map. split; [reflexivity|].
  induction listing as [|e listing IH]; [simpl; lia|].
  cbn [flat_map filter]. rewrite length_app.
  pose proof (kept_rows_at_most_four log_dir e) as He.
  destruct (is_csv_file log_dir e); cbn [List.length]; lia.
Qed.

(** [_load_logs] only reads: whatever it returns or raises, the callback
    object and the world are as before; and without the log directory it
    raises [FileNotFoundError]. *)
Theorem load_logs_only_reads (s : state) :
  snd (_load_logs s) = s
  /\ (fs (snd s) (log_dir (fst s)) = None ->
      fst (_load_logs s) = Raise (FileNotFoundError (log_dir (fst s)))).
Proof.
  destruct s as [self w]. cbn [fst snd].
  destruct (fs w (log_dir self)) as [listing|] eqn:E.
  - rewrite (load_logs_run _ _ _ E). cbn [fst snd].
    split; [reflexivity | discriminate].
  - rewrite (load_logs_missing _ _ E). cbn [fst snd].
    split; reflexivity.
Qed.

Lemma load_logs_only_reads_witness :
  fst (_load_logs (Sample.callback, Sample.upload_fails None))
  = Raise (FileNotFoundError "logs").
Proof.
  apply (proj2 (load_logs_only_reads
                  (Sample.callback, Sample.upload_fails None))).
  reflexivity.
Defined.

(** ** [_on_step] *)

Lemma on_step_evaluate_idle (self : NeptuneCallback) (w : world) :
  evaluate_freq self <> 0%Z ->
  (n_calls self mod evaluate_freq self <> 0)%Z ->
  on_step_evaluate (self, w) = (Ok true, (self, w)).
Proof.
  intros Hf Hm. unfold on_step_evaluate.
  unfold bind at 1, get_self at 1. cbn [fst snd].
  unfold bind at 1. rewrite py_mod_run by exact Hf.
  apply Z.eqb_neq in Hm. now rewrite Hm.
Qed.

Lemma on_step_evaluate_zero (self : NeptuneCallback) (w : world) :
  evaluate_freq self = 0%Z ->
  on_step_evaluate (self, w) = (Raise ZeroDivisionError, (self, w)).
Proof.
  intros Hf. unfold on_step_evaluate.
  unfold bind at 1, get_self at 1. cbn [fst snd].
  unfold bind at 1, py_mod. now rewrite Hf.
Qed.

(** On a step that is a multiple of neither frequency [_on_step] does
    nothing and returns [True], whatever the world: no call is made, no
    file is read, and the object is unchanged. *)
Theorem on_step_idle_between_triggers (self : NeptuneCallback) (w : world) :
  logs_freq self <> 0%Z ->
  evaluate_freq self <> 0%Z ->
  (n_calls self mod logs_freq self <> 0)%Z ->
  (n_calls self mod evaluate_freq self <> 0)%Z ->
  _on_step (self, w) = (Ok true, (self, w)).
Proof.
  intros Hl He Hml Hme.
  rewrite (on_step_skip_logs _ _ Hl Hml).
  now apply on_step_evaluate_idle.
Qed.

Lemma on_step_idle_between_triggers_witness :
  _on_step (set_n_calls 10001 Sample.callback, MoreSamples.save_fails None)
  = (Ok true,
     (set_n_calls 10001 Sample.callback, MoreSamples.save_fails None)).
Proof.
  apply (on_step_idle_between_triggers (set_n_calls 10001 Sample.callback)
           (MoreSamples.save_fails None));
    discriminate.
Defined.

(** Nothing checks the frequencies: with [logs_freq = 0] every [_on_step]
    raises [ZeroDivisionError] at once; with [evaluate_freq = 0] every
    [_on_step] that gets past the logging trigger raises it, after the
    training metrics if the trigger fired and found data; and a logging
    trigger without the log directory raises [FileNotFoundError].  The
    object is unchanged each time. *)
Theorem on_step_configuration_errors (self : NeptuneCallback) (w : world) :
  (logs_freq self = 0%Z ->
   _on_step (self, w) = (Raise ZeroDivisionError, (self, w)))
  /\ (logs_freq self <> 0%Z ->
      evaluate_freq self = 0%Z ->
      (n_calls self mod logs_freq self <> 0)%Z ->
      _on_step (self, w) = (Raise ZeroDivisionError, (self, w)))
  /\ (logs_freq self <> 0%Z ->
      evaluate_freq self = 0%Z ->
      (n_calls self mod logs_freq self = 0)%Z ->
      no_faults w ->
      forall logs,
        fst (_load_logs (self, w)) = Ok (Some logs) ->
        _on_step (self, w)
        = (Raise ZeroDivisionError,
           (self, add_trace (training_metrics logs) w)))
  /\ (logs_freq self <> 0%Z ->
      (n_calls self mod logs_freq self = 0)%Z ->
      fs w (log_dir self) = None ->
      _on_step (self, w)
      = (Raise (FileNotFoundError (log_dir self)), (self, w))).
Proof.
  split; [|split; [|split]].
  - intros Hl. unfold _on_step.
    unfold bind at 1, get_self at 1. cbn [fst snd].
    unfold bind at 1, py_mod. now rewrite Hl.
  - intros Hl He Hm. rewrite (on_step_skip_logs _ _ Hl Hm).
    now apply on_step_evaluate_zero.
  - intros Hl He Hm H logs Hlogs.
    destruct (load_logs_some _ _ _ Hlogs) as [listing [Hd Ha]].
    rewrite (on_step_run _ _ _ H Hl Hd), Hm, Ha. cbn [Z.eqb].
    now apply on_step_evaluate_zero.
  - intros Hl Hm Hd. unfold _on_step.
    unfold bind at 1, get_self at 1. cbn [fst snd].
    unfold bind at 1. rewrite py_mod_run by exact Hl.
    rewrite Hm. cbn [Z.eqb]. unfold bind at 1.
    now rewrite (load_logs_missing _ _ Hd).
Qed.

Lemma on_step_configuration_errors_witness :
  _on_step (set_n_calls 7
              (__init__ "PPO" "Hopper-v2" "team" "mujoco" "run-1" "logs"
                        None None None 0 10000 1000 false),
            Sample.quiet (Some [Sample.six_rows]))
  = (Raise ZeroDivisionError,
     (set_n_calls 7
        (__init__ "PPO" "Hopper-v2" "team" "mujoco" "run-1" "logs"
                  None None None 0 10000 1000 false),
      Sample.quiet (Some [Sample.six_rows]))).
Proof.
  apply (proj1 (on_step_configuration_errors
                  (set_n_calls 7
                     (__init__ "PPO" "Hopper-v2" "team" "mujoco" "run-1"
                               "logs" None None None 0 10000 1000 false))
                  (Sample.quiet (Some [Sample.six_rows])))).
  reflexivity.
Defined.

(** On a step where only the logging trigger fires, in a world where no
    call fails and the log directory holds data, [_on_step] emits exactly
    the four training metrics, with the values [_load_logs] returned and
    in the order mean reward, std reward, mean length, std length; the
    object is unchanged and the result is [True]. *)
Theorem on_step_logging_only (self : NeptuneCallback) (w : world)
    (mean_reward std_reward mean_length std_length : R) :
  no_faults w ->
  logs_freq self <> 0%Z ->
  evaluate_freq self <> 0%Z ->
  (n_calls self mod logs_freq self = 0)%Z ->
  (n_calls self mod evaluate_freq self <> 0)%Z ->
  fst (_load_logs (self, w))
  = Ok (Some (mean_reward, std_reward, mean_length, std_length)) ->
  _on_step (self, w)
  = (Ok true,
     (self,
      add_trace
        [neptune_log_metric "mean reward from training" mean_reward;
         neptune_log_metric "std reward from training" std_reward;
         neptune_log_metric "mean length from training" mean_length;
         neptune_log_metric "std length from training" std_length] w)).
Proof.
  intros H Hl He Hml Hme Hlogs.
  destruct (load_logs_some _ _ _ Hlogs) as [listing [Hd Ha]].
  rewrite (on_step_run _ _ _ H Hl Hd), Hml, Ha. cbn [Z.eqb].
  now rewrite on_step_evaluate_idle.
Qed.

Lemma on_step_logging_only_witness :
  _on_step (set_n_calls 300 Sample.callback,
            Sample.quiet (Some [Sample.two_rows]))
  = (Ok true,
     (set_n_calls 300 Sample.callback,
      add_trace
        [neptune_log_metric "mean reward from training" 9;
         neptune_log_metric "std reward from training" 0;
         neptune_log_metric "mean length from training" 11;
         neptune_log_metric "std length from training" 0]%R
        (Sample.quiet (Some [Sample.two_rows])))).
Proof.
  apply (on_step_logging_only (set_n_calls 300 Sample.callback)
           (Sample.quiet (Some [Sample.two_rows])) 9 0 11 0)%R.
  - intros c. reflexivity.
  - discriminate.
  - discriminate.
  - reflexivity.
  - discriminate.
  - rewrite (load_logs_run _ _ [Sample.two_rows]) by reflexivity.
    cbn [fst].
    change (Spec.pool [Sample.two_rows]) with [{| r := 9; l := 11 |}]%R.
    now rewrite aggregate_singleton.
Defined.

(** On a step where only the evaluation trigger fires, in a world where
    no call fails, [_on_step] reads no log file and emits no training
    metric: it makes the environment, evaluates the policy over five
    deterministic episodes without rendering, records a video if videos
    are enabled, emits the four evaluation metrics, and saves the model
    if the mean reward beats the best. *)
Theorem on_step_evaluation_only (self : NeptuneCallback) (w : world) :
  no_faults w ->
  logs_freq self <> 0%Z ->
  evaluate_freq self <> 0%Z ->
  (n_calls self mod logs_freq self <> 0)%Z ->
  (n_calls self mod evaluate_freq self = 0)%Z ->
  fst (_on_step (self, w)) = Ok true
  /\ new_calls w (snd (snd (_on_step (self, w))))
     = ([gym_make (environment_name self);
         evaluate_policy 5 false true true]
        ++ (if make_video self then video_calls self else [])
        ++ [neptune_log_metric "mean reward from evaluate"
              (Np.mean (fst (policy_eval w)));
            neptune_log_metric "std_reward from evaluate"
              (Np.std (fst (policy_eval w)));
            neptune_log_metric "mean episode length from evaluate"
              (Np.mean (snd (policy_eval w)));
            neptune_log_metric "std episode length from evaluate"
              (Np.std (snd (policy_eval w)))]
        ++ (if float_gt (Np.mean (fst (policy_eval w)))
                        (best_mean_reward self)
            then [model_save
                    (Py.os_path_join (log_dir self) "best_model.plk")]
            else []))%list.
Proof.
  intros H Hl He Hml Hme.
  rewrite (on_step_skip_logs _ _ Hl Hml).
  rewrite on_step_evaluate_run by assumption.
  rewrite Hme. cbn [Z.eqb fst snd]. split; [reflexivity|].
  unfold after_evaluation. cbn [snd].
  now rewrite new_calls_add_trace.
Qed.

Lemma on_step_evaluation_only_witness :
  new_calls (Sample.quiet None)
    (snd (snd (_on_step (set_n_calls 10000
                           (__init__ "PPO" "Hopper-v2" "team" "mujoco"
                                     "run-1" "logs" None None None
                                     3 10000 1000 false),
                         Sample.quiet None))))
  = [gym_make "Hopper-v2";
     evaluate_policy 5 false true true;
     neptune_log_metric "mean reward from evaluate"
       (Np.mean [10; 20; 30; 40; 50]%R);
     neptune_log_metric "std_reward from evaluate"
       (Np.std [10; 20; 30; 40; 50]%R);
     neptune_log_metric "mean episode length from evaluate"
       (Np.mean [100; 100; 100; 100; 100]%R);
     neptune_log_metric "std episode length from evaluate"
       (Np.std [100; 100; 100; 100; 100]%R);
     model_save "logs/best_model.plk"].
Proof.
  refine (proj2 (on_step_evaluation_only
                   (set_n_calls 10000
                      (__init__ "PPO" "Hopper-v2" "team" "mujoco" "run-1"
                                "logs" None None None 3 10000 1000 false))
                   (Sample.quiet None) (fun c => eq_refl) _ _ _ eq_refl));
    discriminate.
Defined.

(** *** When only [model.save] may fail *)

Lemma quiet_except_add_trace (may : call -> bool) (cs : list call)
    (w : world) :
  quiet_except may w -> quiet_except may (add_trace cs w).
Proof. intros H c. exact (H c). Qed.

Lemma no_faults_quiet (may : call -> bool) (w : world) :
  no_faults w -> quiet_except may w.
Proof. intros H c _. apply H. Qed.

(** Runs the next call, which is not a [model.save]. *)
Ltac unsaved H :=
  first [ apply H; reflexivity
        | apply (quiet_except_add_trace _ _ _ H); reflexivity ].

Ltac run_unsaved_call H :=
  rewrite bind_do_call by unsaved H;
  rewrite ?add_trace_app.

Lemma repeat_m_run_unsaved (n : nat) (self : NeptuneCallback) (w : world) :
  quiet_except is_model_save w ->
  repeat_m n (do_call model_predict ;; do_call video_env_step) (self, w)
  = (Ok tt,
     (self,
      add_trace (List.concat (repeat [model_predict; video_env_step] n)) w)).
Proof.
  intros H. revert w H. induction n as [|n IH]; intros w H; simpl.
  - unfold ret. now rewrite add_trace_nil.
  - unfold bind at 1. rewrite bind_do_call by (apply H; reflexivity).
    rewrite do_call_run by unsaved H.
    rewrite IH by (repeat apply quiet_except_add_trace; exact H).
    now rewrite !add_trace_app.
Qed.

Lemma make_video_run_unsaved (self : NeptuneCallback) (w : world) :
  quiet_except is_model_save w ->
  _make_video (self, w) = (Ok tt, (self, add_trace (video_calls self) w)).
Proof.
  intros H. unfold _make_video.
  unfold bind at 1, get_self at 1. cbn [fst snd].
  do 3 run_unsaved_call H.
  unfold bind at 1.
  rewrite repeat_m_run_unsaved by (apply quiet_except_add_trace, H).
  rewrite add_trace_app.
  do 3 run_unsaved_call H.
  rewrite do_call_run by unsaved H.
  rewrite add_trace_app. unfold video_calls.
  repeat rewrite <- app_assoc. reflexivity.
Qed.

Lemma evaluate_run_unsaved (self : NeptuneCallback) (w : world) :
  quiet_except is_model_save w ->
  _evaluate (self, w)
  = (Ok (evaluation_stats w),
     (self,
      add_trace [gym_make (environment_name self);
                 evaluate_policy 5 false true true] w)).
Proof.
  intros H. unfold _evaluate.
  unfold bind at 1, get_self at 1. cbn [fst snd].
  do 2 run_unsaved_call H. reflexivity.
Qed.

(** The evaluation trigger when the mean reward beats the best and the
    [model.save] that follows fails. *)
Lemma on_step_evaluate_save_fails (self : NeptuneCallback) (w : world) :
  quiet_except is_model_save w ->
  evaluate_freq self <> 0%Z ->
  (n_calls self mod evaluate_freq self = 0)%Z ->
  improves self w = true ->
  faults w (model_save (Py.os_path_join (log_dir self) "best_model.plk"))
  = true ->
  on_step_evaluate (self, w)
  = (Raise (ExternalError
              (model_save (Py.os_path_join (log_dir self) "best_model.plk"))),
     (with_best (Fin (Np.mean (fst (policy_eval w)))) self,
      add_trace
        ([gym_make (environment_name self);
          evaluate_policy 5 false true true]
         ++ (if make_video self then video_calls self else [])
         ++ evaluation_metrics (evaluation_stats w)) w)).
Proof.
  intros H Hf Hm Hi Hs. unfold on_step_evaluate.
  unfold bind at 1, get_self at 1. cbn [fst snd].
  unfold bind at 1. rewrite py_mod_run by exact Hf.
  rewrite Hm. cbn [Z.eqb].
  unfold bind at 1. unfold bind at 1.
  rewrite evaluate_run_unsaved by exact H.
  unfold evaluation_stats at 1. cbv iota beta.
  unfold improves in Hi. rewrite Hi.
  unfold bind at 1.
  destruct (make_video self).
  - rewrite make_video_run_unsaved by (apply quiet_except_add_trace, H).
    rewrite add_trace_app. do 4 run_unsaved_call H.
    unfold bind at 1, set_best_mean_reward at 1. cbn [fst snd].
    unfold do_call. cbn [fst snd faults add_trace]. rewrite Hs.
    unfold evaluation_metrics, evaluation_stats.
    repeat rewrite <- app_assoc. reflexivity.
  - unfold ret at 1. do 4 run_unsaved_call H.
    unfold bind at 1, set_best_mean_reward at 1. cbn [fst snd].
    unfold do_call. cbn [fst snd faults add_trace]. rewrite Hs.
    reflexivity.
Qed.

Lemma no_save_without_improvement (self : NeptuneCallback) (w : world) :
  improves self w = false ->
  filter is_model_save (evaluation_calls self w) = [].
Proof. intros H. now rewrite saves_of_evaluation, H. Qed.

Lemma float_gt_irrefl (m : R) : float_gt m (Fin m) = false.
Proof. simpl. destruct (Rlt_dec m m); [lra | reflexivity]. Qed.

(** [_on_step] sets the new best before it saves the model.  On a step
    where only the evaluation trigger fires and the mean reward beats the
    best, a failing [model.save] (nothing else failing) makes [_on_step]
    raise with no checkpoint written, yet [best_mean_reward] is already
    the new mean; so a later evaluation with the same mean reward, in a
    world where nothing fails, saves nothing either. *)
Theorem failed_save_still_raises_best (self : NeptuneCallback)
    (w later : world) (n : Z) :
  quiet_except is_model_save w ->
  faults w (model_save (Py.os_path_join (log_dir self) "best_model.plk"))
  = true ->
  logs_freq self <> 0%Z ->
  evaluate_freq self <> 0%Z ->
  (n_calls self mod logs_freq self <> 0)%Z ->
  (n_calls self mod evaluate_freq self = 0)%Z ->
  efloat_lt (best_mean_reward self) (Fin (Np.mean (fst (policy_eval w)))) ->
  no_faults later ->
  policy_eval later = policy_eval w ->
  (n mod logs_freq self <> 0)%Z ->
  (n mod evaluate_freq self = 0)%Z ->
  let failed := _on_step (self, w) in
  let retry := _on_step (set_n_calls n (fst (snd failed)), later) in
  fst failed
  = Raise (ExternalError
             (model_save (Py.os_path_join (log_dir self) "best_model.plk")))
  /\ filter is_model_save (new_calls w (snd (snd failed))) = []
  /\ best_mean_reward (fst (snd failed))
     = Fin (Np.mean (fst (policy_eval w)))
  /\ fst retry = Ok true
  /\ filter is_model_save (new_calls later (snd (snd retry))) = [].
Proof.
  intros H Hs Hl He Hml Hme Hlt Hq Hp Hnl Hne failed retry.
  assert (Hf : failed
               = (Raise (ExternalError
                           (model_save
                              (Py.os_path_join (log_dir self)
                                               "best_model.plk"))),
                  (with_best (Fin (Np.mean (fst (policy_eval w)))) self,
                   add_trace
                     ([gym_make (environment_name self);
                       evaluate_policy 5 false true true]
                      ++ (if make_video self then video_calls self else [])
                      ++ evaluation_metrics (evaluation_stats w)) w))).
  { subst failed. rewrite (on_step_skip_logs _ _ Hl Hml).
    apply on_step_evaluate_save_fails; try assumption.
    unfold improves. now apply float_gt_true_iff. }
  subst retry. rewrite Hf. cbn [fst snd].
  split; [reflexivity|]. split.
  { rewrite new_calls_add_trace, !filter_app.
    rewrite no_save_in_evaluation_metrics.
    destruct (make_video self); [rewrite no_save_in_video|]; reflexivity. }
  split; [reflexivity|].
  set (self' := set_n_calls n
                  (with_best (Fin (Np.mean (fst (policy_eval w)))) self)).
  assert (Hr : _on_step (self', later)
               = (Ok true, after_evaluation self' later)).
  { rewrite on_step_skip_logs by assumption.
    rewrite on_step_evaluate_run by assumption.
    subst self'. cbn [n_calls set_n_calls evaluate_freq with_best].
    now rewrite Hne. }
  rewrite Hr. cbn [fst snd]. split; [reflexivity|].
  unfold after_evaluation. cbn [snd]. rewrite new_calls_add_trace.
  apply no_save_without_improvement.
  unfold improves. subst self'. cbn [best_mean_reward set_n_calls with_best].
  rewrite Hp. apply float_gt_irrefl.
Qed.

Lemma save_fails_quiet (listing : option (list dir_entry)) :
  quiet_except is_model_save (MoreSamples.save_fails listing).
Proof. intros c H. exact H. Defined.

Lemma failed_save_still_raises_best_witness :
  fst (_on_step (set_n_calls 10000
                   (__init__ "PPO" "Hopper-v2" "team" "mujoco" "run-1"
                             "logs" None None None 3 10000 1000 false),
                 MoreSamples.save_fails None))
  = Raise (ExternalError (model_save "logs/best_model.plk"))
  /\ best_mean_reward
       (fst (snd (_on_step
                    (set_n_calls 10000
                       (__init__ "PPO" "Hopper-v2" "team" "mujoco" "run-1"
                                 "logs" None None None 3 10000 1000 false),
                     MoreSamples.save_fails None))))
     = Fin (Np.mean [10; 20; 30; 40; 50]%R).
Proof.
  destruct (failed_save_still_raises_best
              (set_n_calls 10000
                 (__init__ "PPO" "Hopper-v2" "team" "mujoco" "run-1" "logs"
                           None None None 3 10000 1000 false))
              (MoreSamples.save_fails None) (Sample.quiet None) 20000
              (save_fails_quiet None) eq_refl)
    as [Hraise [_ [Hbest _]]];
    try discriminate; try reflexivity; try exact I.
  - intros c. reflexivity.
  - split; [exact Hraise | exact Hbest].
Defined.

(** *** Calls in a given order, whatever fails *)

Section CallsThen.

Variable P : call -> Prop.
Variable Q : list call -> Prop.
Hypothesis Q_nil : Q [].

Lemma calls_then_only {A} (m : M A) : calls_only P m -> calls_then P Q m.
Proof.
  intros H s. destruct (H s) as [cs [Ht Hcs]].
  exists cs, []. now rewrite app_nil_r.
Qed.

Lemma calls_then_bind {A B} (m : M A) (k : A -> M B) :
  calls_only P m -> (forall a, calls_then P Q (k a)) ->
  calls_then P Q (bind m k).
Proof.
  intros Hm Hk s. unfold bind. destruct (Hm s) as [cs [Ht Hcs]].
  destruct (m s) as [[a|e] s']; cbn [fst snd] in *.
  - destruct (Hk a s') as [cs' [t [Ht' [Hcs' Hq]]]].
    exists (cs ++ cs')%list, t. rewrite Ht', Ht, <- !app_assoc.
    split; [reflexivity|]. split; [now apply Forall_app | exact Hq].
  - exists cs, []. now rewrite app_nil_r.
Qed.

Lemma calls_then_bind_silent {A B} (m : M A) (k : A -> M B) :
  calls_then P Q m -> (forall a, silent (k a)) ->
  calls_then P Q (bind m k).
Proof.
  intros Hm Hk s. unfold bind. destruct (Hm s) as [cs [t [Ht H]]].
  destruct (m s) as [[a|e] s']; cbn [fst snd] in *.
  - exists cs, t. now rewrite Hk.
  - now exists cs, t.
Qed.

Lemma calls_then_from_all {A} (self : NeptuneCallback) (m : M A) :
  calls_then P Q m -> calls_then_from self P Q m.
Proof. intros H s _. apply H. Qed.

Lemma calls_then_from_bind {A B} (self : NeptuneCallback) (m : M A)
    (k : A -> M B) :
  keeps_self m -> calls_only P m ->
  (forall a, calls_then_from self P Q (k a)) ->
  calls_then_from self P Q (bind m k).
Proof.
  intros Hs Hm Hk s Hself. unfold bind.
  destruct (Hm s) as [cs [Ht Hcs]]. specialize (Hs s).
  destruct (m s) as [[a|e] s']; cbn [fst snd] in *.
  - destruct (Hk a s') as [cs' [t [Ht' [Hcs' Hq]]]]; [congruence|].
    exists (cs ++ cs')%list, t. rewrite Ht', Ht, <- !app_assoc.
    split; [reflexivity|]. split; [now apply Forall_app | exact Hq].
  - exists cs, []. now rewrite app_nil_r.
Qed.

End CallsThen.

Lemma load_logs_state (s : state) : snd (_load_logs s) = s.
Proof.
  destruct s as [self w].
  destruct (fs w (log_dir self)) as [listing|] eqn:E.
  - now rewrite (load_logs_run _ _ _ E).
  - now rewrite (load_logs_missing _ _ E).
Qed.

Lemma silent_py_mod (a b : Z) : silent (py_mod a b).
Proof. intros s. unfold py_mod. now destruct (Z.eqb b 0). Qed.

Lemma silent_load_logs : silent _load_logs.
Proof. intros s. now rewrite load_logs_state. Qed.

Lemma calls_only_repeat (P : call -> Prop) (n : nat) (body : M unit) :
  calls_only P body -> calls_only P (repeat_m n body).
Proof.
  intros H. induction n as [|n IH]; simpl.
  - now apply calls_only_silent.
  - apply calls_only_bind; [exact H | intros _; exact IH].
Qed.

(** Walks through a method all of whose calls satisfy a decidable test. *)
Ltac only_calls :=
  repeat first
    [ apply calls_only_do_call; reflexivity
    | apply calls_only_silent; first [ apply silent_py_mod
                                     | apply silent_load_logs
                                     | intros ?; reflexivity ]
    | apply calls_only_repeat
    | apply calls_only_bind; [|intros]
    | match goal with
      | |- calls_only _ (if ?b then _ else _) => destruct b
      | |- calls_only _ (match ?x with _ => _ end) => destruct x
      end ].

Lemma evaluate_never_saves :
  calls_only (fun c => is_model_save c = false) _evaluate.
Proof. unfold _evaluate. only_calls. Qed.

Lemma make_video_never_saves :
  calls_only (fun c => is_model_save c = false) _make_video.
Proof. unfold _make_video. only_calls. Qed.

(** The end of the evaluation trigger. *)
Lemma save_if_better (self : NeptuneCallback) (better : bool) (v : efloat) :
  calls_then (fun c => is_model_save c = false) (at_most_one_save self)
    (if better
     then set_best_mean_reward v ;;
          do_call (model_save (Py.os_path_join (log_dir self)
                                               "best_model.plk"))
     else ret tt).
Proof.
  intros s. exists []. destruct better.
  - unfold bind, set_best_mean_reward, do_call. cbn [fst snd].
    destruct (faults (snd s) _); cbn [fst snd add_trace trace].
    + exists []. rewrite app_nil_r. repeat split; [constructor | now left].
    + eexists. repeat split; [constructor | now right].
  - exists []. cbn [fst snd ret]. rewrite app_nil_r.
    repeat split; [constructor | now left].
Qed.

Lemma on_step_evaluate_saves (self : NeptuneCallback) :
  calls_then_from self (fun c => is_model_save c = false)
    (at_most_one_save self) on_step_evaluate.
Proof.
  intros [self' w] Hs. cbn [fst] in Hs. subst self'.
  unfold on_step_evaluate. unfold bind at 1, get_self at 1. cbn [fst snd].
  match goal with
  | |- exists cs t, trace (snd (snd (?m ?s))) = _ /\ _ /\ _ =>
      cut (calls_then (fun c => is_model_save c = false)
                      (at_most_one_save self) m);
        [intros Hm; exact (Hm s)|]
  end.
  assert (Hnil : at_most_one_save self []) by now left.
  apply calls_then_bind; [exact Hnil | only_calls |]. intros c.
  apply calls_then_bind_silent; [|intros _ s; reflexivity].
  destruct (Z.eqb c 0); [|apply calls_then_only; [exact Hnil | only_calls]].
  apply calls_then_bind; [exact Hnil | exact evaluate_never_saves |].
  intros [[[mean_reward std_reward] mean_ep_length] std_ep_length].
  apply calls_then_bind; [exact Hnil | |].
  { destruct (make_video self);
      [exact make_video_never_saves | only_calls]. }
  intros _.
  do 4 (apply calls_then_bind; [exact Hnil | only_calls | intros _]).
  apply save_if_better.
Qed.

(** Whatever the world and whatever fails, one [_on_step] calls
    [model.save] at most once, and only for [best_model.plk] in the log
    directory: the checkpoint is the only file the hook ever writes
    through the model. *)
Theorem on_step_saves_at_most_once (s : state) :
  let saves :=
    filter is_model_save (new_calls (snd s) (snd (snd (_on_step s)))) in
  saves = []
  \/ saves = [model_save (Py.os_path_join (log_dir (fst s))
                                          "best_model.plk")].
Proof.
  cbv zeta. destruct s as [self w]. cbn [fst snd].
  assert (H : exists cs t,
             trace (snd (snd (_on_step (self, w))))
             = (trace w ++ cs ++ t)%list
             /\ Forall (fun c => is_model_save c = false) cs
             /\ at_most_one_save self t).
  { unfold _on_step. unfold bind at 1, get_self at 1. cbn [fst snd].
    match goal with
    | |- exists cs t, trace (snd (snd (?m ?s))) = _ /\ _ /\ _ =>
        cut (calls_then_from self (fun c => is_model_save c = false)
                             (at_most_one_save self) m);
          [intros Hm; exact (Hm s eq_refl)|]
    end.
    assert (Hnil : at_most_one_save self []) by now left.
    apply calls_then_from_bind; [exact Hnil | keeps | only_calls |].
    intros c. destruct (Z.eqb c 0); [|apply on_step_evaluate_saves].
    apply calls_then_from_bind; [exact Hnil | keeps | only_calls |].
    intros [[[[a b] c'] d]|].
    - do 4 (apply calls_then_from_bind;
            [exact Hnil | keeps | only_calls | intros _]).
      apply on_step_evaluate_saves.
    - apply calls_then_from_all, calls_then_only; [exact Hnil | only_calls]. }
  destruct H as [cs [t [Ht [Hcs Hq]]]].
  rewrite (new_calls_of_trace _ _ _ Ht), filter_app.
  replace (filter is_model_save cs) with (@nil call).
  - destruct Hq as [->| ->]; [now left | now right].
  - symmetry. clear Ht. induction Hcs as [|c cs Hc _ IH]; [reflexivity|].
    cbn [filter]. now rewrite Hc.
Qed.

(** ** [_make_video] *)

Lemma upload_then_remove (self : NeptuneCallback) (json : string) :
  calls_then (fun c => is_os_remove c = false) (starts_with_upload self)
    (do_call (neptune_log_video (video_path self)) ;;
     do_call (os_remove (video_path self)) ;;
     do_call (os_remove json)).
Proof.
  intros s. exists []. unfold bind, do_call. cbn [fst snd app].
  destruct (faults (snd s) (neptune_log_video (video_path self)));
    cbn [fst snd add_trace trace faults].
  - exists []. rewrite app_nil_r.
    split; [reflexivity|]. split; [constructor | now left].
  - destruct (faults (snd s) (os_remove (video_path self)));
      cbn [fst snd add_trace trace faults].
    + eexists. split; [reflexivity|].
      split; [constructor | right; now eexists].
    + destruct (faults (snd s) (os_remove json));
        cbn [fst snd add_trace trace faults]; rewrite <- ?app_assoc;
        eexists; (split; [reflexivity|]);
        (split; [constructor | right; now eexists]).
Qed.

(** Whatever the world and whatever fails, [_make_video] removes a file
    only after the upload of the video has completed: when the upload, or
    anything before it, fails, the video and its metadata file stay in
    the log directory. *)
Theorem make_video_removes_after_upload (s : state) (path : string) :
  In (os_remove path) (new_calls (snd s) (snd (snd (_make_video s)))) ->
  In (neptune_log_video (video_path (fst s)))
     (new_calls (snd s) (snd (snd (_make_video s)))).
Proof.
  destruct s as [self w]. cbn [fst snd].
  assert (H : exists cs t,
             trace (snd (snd (_make_video (self, w))))
             = (trace w ++ cs ++ t)%list
             /\ Forall (fun c => is_os_remove c = false) cs
             /\ starts_with_upload self t).
  { unfold _make_video. unfold bind at 1, get_self at 1. cbn [fst snd].
    match goal with
    | |- exists cs t, trace (snd (snd (?m ?s))) = _ /\ _ /\ _ =>
        cut (calls_then (fun c => is_os_remove c = false)
                        (starts_with_upload self) m);
          [intros Hm; exact (Hm s)|]
    end.
    assert (Hnil : starts_with_upload self []) by now left.
    do 5 (apply calls_then_bind; [exact Hnil | only_calls | intros _]).
    apply upload_then_remove. }
  destruct H as [cs [t [Ht [Hcs Hq]]]].
  rewrite (new_calls_of_trace _ _ _ Ht). intros Hin.
  apply in_app_or in Hin. destruct Hin as [Hin|Hin].
  - rewrite Forall_forall in Hcs. specialize (Hcs _ Hin). discriminate.
  - destruct Hq as [->|[rest ->]]; [destruct Hin|].
    apply in_or_app. right. now left.
Qed.

Lemma make_video_removes_after_upload_witness :
  In (neptune_log_video "logs/run-1-step-10000-step-0-to-step-2.mp4")
     (new_calls (Sample.quiet (Some []))
        (snd (snd (_make_video (set_n_calls 10000 MoreSamples.filming,
                                Sample.quiet (Some [])))))).
Proof.
  apply (make_video_removes_after_upload
           (set_n_calls 10000 MoreSamples.filming, Sample.quiet (Some []))
           "logs/run-1-step-10000-step-0-to-step-2.meta.json").
  rewrite make_video_run by (intros c; reflexivity).
  cbn [snd]. rewrite new_calls_add_trace.
  do 12 right. left. reflexivity.
Defined.

Lemma predicts_in_loop (n : nat) :
  List.length
    (filter is_model_predict
            (List.concat (repeat [model_predict; video_env_step] n)))
  = n.
Proof. induction n as [|n IH]; [reflexivity|]. simpl. now rewrite IH. Qed.

(** In a world where no call fails, [_make_video] makes the environment,
    wraps it in a recorder named after the experiment and the step count,
    resets it, asks the model for [video_length + 1] actions (none when
    that is negative), each followed by one step of the environment,
    closes the recorder, uploads the [.mp4] file and removes it and its
    [.meta.json] file; the callback object is unchanged. *)
Theorem make_video_records_length_plus_one (self : NeptuneCallback)
    (w : world) :
  no_faults w ->
  let video_name :=
    experiment_name self ++ "-step-" ++ Py.str (n_calls self) in
  let file extension :=
    Py.os_path_join (log_dir self)
      (video_name ++ "-step-0-to-step-" ++ Py.str (video_length self)
                  ++ extension) in
  _make_video (self, w)
  = (Ok tt,
     (self,
      add_trace
        ([gym_make (environment_name self);
          video_recorder (log_dir self) video_name (video_length self);
          video_env_reset]
         ++ List.concat (repeat [model_predict; video_env_step]
                                (Z.to_nat (video_length self + 1)))
         ++ [video_env_close;
             neptune_log_video (file ".mp4");
             os_remove (file ".mp4");
             os_remove (file ".meta.json")]) w))
  /\ List.length
       (filter is_model_predict
               (new_calls w (snd (snd (_make_video (self, w))))))
     = Z.to_nat (video_length self + 1).
Proof.
  intros H video_name file. rewrite (make_video_run _ _ H).
  split; [reflexivity|]. cbn [snd]. rewrite new_calls_add_trace.
  unfold video_calls. cbv zeta. rewrite !filter_app.
  cbn [filter is_model_predict app]. rewrite app_nil_r.
  apply predicts_in_loop.
Qed.

Lemma make_video_records_length_plus_one_witness :
  _make_video (set_n_calls 10000 MoreSamples.filming, Sample.quiet (Some []))
  = (Ok tt,
     (set_n_calls 10000 MoreSamples.filming,
      add_trace
        [gym_make "Hopper-v2";
         video_recorder "logs" "run-1-step-10000" 2;
         video_env_reset;
         model_predict; video_env_step;
         model_predict; video_env_step;
         model_predict; video_env_step;
         video_env_close;
         neptune_log_video "logs/run-1-step-10000-step-0-to-step-2.mp4";
         os_remove "logs/run-1-step-10000-step-0-to-step-2.mp4";
         os_remove "logs/run-1-step-10000-step-0-to-step-2.meta.json"]
        (Sample.quiet (Some [])))).
Proof.
  apply (proj1 (make_video_records_length_plus_one
                  (set_n_calls 10000 MoreSamples.filming)
                  (Sample.quiet (Some [])) (fun c => eq_refl))).
Defined.

(** ** What may be raised *)

Section RaisesOnly.

Variable allowed : (call -> bool) -> exn -> Prop.

Lemma raises_only_total {A} (m : M A) :
  (forall s, faults (snd (snd (m s))) = faults (snd s)
             /\ exists a, fst (m s) = Ok a) ->
  raises_only allowed m.
Proof.
  intros H s. destruct (H s) as [Hf [a Ha]]. split; [exact Hf|].
  intros e He. rewrite Ha in He. discriminate.
Qed.

Lemma raises_only_do_call (c : call) :
  (forall failing, failing c = true -> allowed failing (ExternalError c)) ->
  raises_only allowed (do_call c).
Proof.
  intros H s. unfold do_call. destruct (faults (snd s) c) eqn:E;
    cbn [fst snd]; (split; [reflexivity|]); intros e He.
  - injection He as <-. now apply H.
  - discriminate.
Qed.

Lemma raises_only_bind {A B} (m : M A) (k : A -> M B) :
  raises_only allowed m -> (forall a, raises_only allowed (k a)) ->
  raises_only allowed (bind m k).
Proof.
  intros Hm Hk s. unfold bind. destruct (Hm s) as [Hf He].
  destruct (m s) as [[a|e] s']; cbn [fst snd] in *.
  - destruct (Hk a s') as [Hf' He']. rewrite Hf in Hf'.
    split; [exact Hf'|]. intros e H. rewrite <- Hf. now apply He'.
  - split; [exact Hf|]. intros e' H. injection H as <-. now apply He.
Qed.

Lemma raises_only_try (m : M unit) :
  raises_only (fun _ _ => True) m ->
  raises_only allowed (try_except_pass m).
Proof.
  intros H s. unfold try_except_pass. destruct (H s) as [Hf _].
  destruct (m s) as [[a|e] s']; cbn [fst snd] in *;
    (split; [exact Hf | discriminate]).
Qed.

Lemma raises_only_repeat (n : nat) (body : M unit) :
  raises_only allowed body -> raises_only allowed (repeat_m n body).
Proof.
  intros H. induction n as [|n IH]; simpl.
  - apply raises_only_total. intros s. split; [reflexivity | now eexists].
  - apply raises_only_bind; [exact H | intros _; exact IH].
Qed.

End RaisesOnly.

(** Walks through a method whose calls may all fail with an allowed
    exception; [call_ok] justifies each call. *)
Ltac raises call_ok :=
  repeat first
    [ apply raises_only_do_call; call_ok
    | apply raises_only_total; intros ?; split; [reflexivity | now eexists]
    | apply raises_only_repeat
    | apply raises_only_try
    | apply raises_only_bind; [|intros]
    | match goal with
      | |- raises_only _ (if ?b then _ else _) => destruct b
      | |- raises_only _ (match ?x with _ => _ end) => destruct x
      end ].

Lemma raises_only_lift {A} (allowed : (call -> bool) -> exn -> Prop)
    (x : result A) :
  (forall failing e, x = Raise e -> allowed failing e) ->
  raises_only allowed (lift x).
Proof.
  intros H s. split; [reflexivity|]. intros e He. now apply (H _ e).
Qed.

Lemma raises_only_mkdir (allowed : (call -> bool) -> exn -> Prop)
    (path : string) :
  (forall failing,
      failing (os_mkdir path) = true ->
      allowed failing (ExternalError (os_mkdir path))) ->
  raises_only allowed (mkdir path).
Proof.
  intros H. unfold mkdir. apply raises_only_bind.
  - now apply raises_only_do_call.
  - intros _. apply raises_only_total. intros s.
    split; [reflexivity | now eexists].
Qed.

Lemma init_callback_raises : raises_only external_failure _init_callback.
Proof.
  unfold _init_callback, os_path_exists.
  repeat first
    [ apply raises_only_mkdir;
      intros failing Hc; eexists; split; [reflexivity|];
      split; [exact Hc | intros ? ?; discriminate]
    | apply raises_only_lift; intros; exact I
    | progress raises
        ltac:(intros failing Hc; first
                [ exact I
                | eexists; split; [reflexivity|];
                  split; [exact Hc | intros ? ?; discriminate] ]) ].
Qed.

(** [_init_callback] raises only when a call other than the upload of the
    hyperparameter text fails, and then with the failure of that call: a
    failed upload of the hyperparameter text and the [TypeError] of an
    empty mapping never leave the [try] block. *)
Theorem init_callback_raises_only_other_failures (s : state) (e : exn) :
  fst (_init_callback s) = Raise e ->
  exists c,
    e = ExternalError c
    /\ faults (snd s) c = true
    /\ forall text, c <> neptune_log_text "Model Params" text.
Proof.
  intros H. exact (proj2 (init_callback_raises s) e H).
Qed.

Lemma init_callback_raises_only_other_failures_witness :
  exists c,
    ExternalError (neptune_init "team/mujoco") = ExternalError c
    /\ faults Sample.session_fails c = true
    /\ forall text, c <> neptune_log_text "Model Params" text.
Proof.
  apply (init_callback_raises_only_other_failures
           (Sample.described, Sample.session_fails)
           (ExternalError (neptune_init "team/mujoco"))).
  reflexivity.
Defined.

(** Justifies a call that may fail with its own failure. *)
Ltac own_failure :=
  intros failing Hc; eexists; split; [reflexivity | exact Hc].

Lemma evaluate_raises : raises_only call_failure _evaluate.
Proof. unfold _evaluate. raises own_failure. Qed.

Lemma make_video_raises : raises_only call_failure _make_video.
Proof. unfold _make_video. raises own_failure. Qed.

Lemma bind_do_call_cases {A} (c : call) (k : unit -> M A)
    (self : NeptuneCallback) (w : world) :
  bind (do_call c) k (self, w)
  = if faults w c then (Raise (ExternalError c), (self, w))
    else k tt (self, add_trace [c] w).
Proof. unfold bind, do_call. cbn [fst snd]. now destruct (faults w c). Qed.

Lemma on_step_evaluate_failures (self : NeptuneCallback) (w : world)
    (e : exn) :
  fst (on_step_evaluate (self, w)) = Raise e ->
  (e = ZeroDivisionError /\ evaluate_freq self = 0%Z)
  \/ call_failure (faults w) e.
Proof.
  destruct (Z.eq_dec (evaluate_freq self) 0) as [Hz|Hz].
  - rewrite (on_step_evaluate_zero _ _ Hz). intros H. injection H as <-.
    now left.
  - unfold on_step_evaluate. unfold bind at 1, get_self at 1.
    cbn [fst snd]. unfold bind at 1. rewrite py_mod_run by exact Hz.
    intros H. right.
    match type of H with
    | fst (?m ?s) = _ =>
        cut (raises_only call_failure m);
          [intros Hm; exact (proj2 (Hm s) e H)|]
    end.
    apply raises_only_bind;
      [|intros _; apply raises_only_total; intros ?;
        split; [reflexivity | now eexists]].
    destruct (Z.eqb (n_calls self mod evaluate_freq self) 0);
      [|apply raises_only_total; intros ?;
        split; [reflexivity | now eexists]].
    apply raises_only_bind; [exact evaluate_raises|].
    intros [[[mean_reward std_reward] mean_ep_length] std_ep_length].
    apply raises_only_bind.
    { destruct (make_video self); [exact make_video_raises|].
      apply raises_only_total. intros ?. split; [reflexivity | now eexists]. }
    intros _. raises own_failure.
Qed.

(** Splits on whether the call at hand fails; a failing call ends the
    proof as the failure of that call. *)
Ltac split_on_fault :=
  match goal with
  | |- context [if faults ?w ?c then _ else _] =>
      let E := fresh "E" in
      let H := fresh "H" in
      destruct (faults w c) eqn:E;
      [ cbn [fst]; intros H; injection H as H; right; eexists;
        split; [symmetry; exact H | exact E]
      | ]
  end.

(** Apart from what [_load_logs] raises, [_on_step] raises in two ways
    only: whenever the log aggregation of the step, if the logging trigger
    fires, returns, an exception of [_on_step] is a [ZeroDivisionError]
    with one of the two frequencies zero, or the failure of a call that
    fails in the world. *)
Theorem on_step_raises_only (self : NeptuneCallback) (w : world) (e : exn) :
  fst (_on_step (self, w)) = Raise e ->
  (logs_freq self <> 0%Z ->
   (n_calls self mod logs_freq self = 0)%Z ->
   exists logs, fst (_load_logs (self, w)) = Ok logs) ->
  (e = ZeroDivisionError
   /\ (logs_freq self = 0%Z \/ evaluate_freq self = 0%Z))
  \/ (exists c, e = ExternalError c /\ faults w c = true).
Proof.
  intros Hraise Hlogs. revert Hraise.
  assert (Hev : forall w', faults w' = faults w ->
             fst (on_step_evaluate (self, w')) = Raise e ->
             (e = ZeroDivisionError
              /\ (logs_freq self = 0%Z \/ evaluate_freq self = 0%Z))
             \/ (exists c, e = ExternalError c /\ faults w c = true)).
  { intros w' Hf H. apply on_step_evaluate_failures in H.
    destruct H as [[-> Hz]|H]; [left; split; [reflexivity | now right]|].
    right. now rewrite Hf in H. }
  destruct (Z.eq_dec (logs_freq self) 0) as [Hz|Hz].
  - unfold _on_step. unfold bind at 1, get_self at 1. cbn [fst snd].
    unfold bind at 1, py_mod. rewrite Hz. cbn [Z.eqb raise fst].
    intros H. injection H as <-. left. split; [reflexivity | now left].
  - destruct (Z.eq_dec (n_calls self mod logs_freq self) 0) as [Hm|Hm].
    + destruct (Hlogs Hz Hm) as [logs Hl].
      destruct (fs w (log_dir self)) as [listing|] eqn:Hd;
        [|rewrite (load_logs_missing _ _ Hd) in Hl; discriminate].
      unfold _on_step. unfold bind at 1, get_self at 1. cbn [fst snd].
      unfold bind at 1. rewrite py_mod_run by exact Hz.
      rewrite Hm. cbn [Z.eqb]. unfold bind at 1.
      rewrite (load_logs_run _ _ _ Hd).
      destruct (Spec.aggregate (Spec.pool listing))
        as [[[[a b] c] d]|]; [|discriminate].
      rewrite bind_do_call_cases.
      split_on_fault.
      rewrite bind_do_call_cases. cbn [faults add_trace].
      split_on_fault.
      rewrite bind_do_call_cases. cbn [faults add_trace].
      split_on_fault.
      rewrite bind_do_call_cases. cbn [faults add_trace].
      split_on_fault.
      now apply Hev.
    + rewrite (on_step_skip_logs _ _ Hz Hm). now apply Hev.
Qed.

Lemma on_step_raises_only_witness :
  (ExternalError (model_save "logs/best_model.plk") = ZeroDivisionError
   /\ (3%Z = 0%Z \/ 10000%Z = 0%Z))
  \/ (exists c,
         ExternalError (model_save "logs/best_model.plk") = ExternalError c
         /\ faults (MoreSamples.save_fails None) c = true).
Proof.
  apply (on_step_raises_only
           (set_n_calls 10000
              (__init__ "PPO" "Hopper-v2" "team" "mujoco" "run-1" "logs"
                        None None None 3 10000 1000 false))
           (MoreSamples.save_fails None)
           (ExternalError (model_save "logs/best_model.plk"))).
  - rewrite on_step_skip_logs by discriminate.
    rewrite on_step_evaluate_save_fails;
      [reflexivity | apply save_fails_quiet | discriminate | reflexivity
      | reflexivity | reflexivity].
  - intros _ H. discriminate H.
Defined.

(** ** The attributes of the object *)

Lemma with_best_same (self : NeptuneCallback) :
  with_best (best_mean_reward self) self = self.
Proof. now destruct self. Qed.

Lemma with_logger_same (self : NeptuneCallback) :
  with_logger (neptune_logger self) self = self.
Proof. now destruct self. Qed.

Section ChangesOnly.

Context {A B : Type}.

Lemma keeps_self_changes_only_best (m : M A) :
  keeps_self m -> changes_only_best m.
Proof. intros H s. rewrite H. symmetry. apply with_best_same. Qed.

Lemma keeps_self_changes_only_logger (m : M A) :
  keeps_self m -> changes_only_logger m.
Proof. intros H s. rewrite H. symmetry. apply with_logger_same. Qed.

Lemma changes_only_best_bind (m : M A) (k : A -> M B) :
  changes_only_best m -> (forall a, changes_only_best (k a)) ->
  changes_only_best (bind m k).
Proof.
  intros Hm Hk s. unfold bind. specialize (Hm s).
  destruct (m s) as [[a|e] s']; cbn [fst snd] in *; [|exact Hm].
  rewrite (Hk a s') at 1. rewrite Hm. reflexivity.
Qed.

Lemma changes_only_logger_bind (m : M A) (k : A -> M B) :
  changes_only_logger m -> (forall a, changes_only_logger (k a)) ->
  changes_only_logger (bind m k).
Proof.
  intros Hm Hk s. unfold bind. specialize (Hm s).
  destruct (m s) as [[a|e] s']; cbn [fst snd] in *; [|exact Hm].
  rewrite (Hk a s') at 1. rewrite Hm. reflexivity.
Qed.

End ChangesOnly.

Lemma changes_only_best_set (v : efloat) :
  changes_only_best (set_best_mean_reward v).
Proof. now intros s. Qed.

Lemma changes_only_logger_set (v : option neptune_project) :
  changes_only_logger (set_neptune_logger v).
Proof. now intros s. Qed.

Lemma changes_only_logger_try (m : M unit) :
  changes_only_logger m -> changes_only_logger (try_except_pass m).
Proof.
  intros H s. unfold try_except_pass. specialize (H s).
  now destruct (m s) as [[a|e] s'].
Qed.

Lemma on_step_evaluate_changes_only_best : changes_only_best on_step_evaluate.
Proof.
  unfold on_step_evaluate.
  repeat first
    [ solve [apply keeps_self_changes_only_best; keeps]
    | apply changes_only_best_set
    | apply changes_only_best_bind; [|intros]
    | match goal with
      | |- changes_only_best (if ?b then _ else _) => destruct b
      | |- changes_only_best (match ?x with _ => _ end) => destruct x
      end ].
Qed.

Lemma on_step_changes_only_best : changes_only_best _on_step.
Proof.
  unfold _on_step.
  repeat first
    [ apply on_step_evaluate_changes_only_best
    | solve [apply keeps_self_changes_only_best; keeps]
    | apply changes_only_best_bind; [|intros]
    | match goal with
      | |- changes_only_best (if ?b then _ else _) => destruct b
      | |- changes_only_best (match ?x with _ => _ end) => destruct x
      end ].
Qed.

Lemma init_callback_changes_only_logger : changes_only_logger _init_callback.
Proof.
  unfold _init_callback.
  repeat first
    [ solve [apply keeps_self_changes_only_logger; keeps]
    | apply changes_only_logger_set
    | apply changes_only_logger_bind; [|intros]
    | apply changes_only_logger_try
    | match goal with
      | |- changes_only_logger (if ?b then _ else _) => destruct b
      | |- changes_only_logger (match ?x with _ => _ end) => destruct x
      end ].
Qed.

(** What the constructor stored stays as it is, whatever happens and
    whatever fails: [_on_step] changes no attribute of the object other
    than [best_mean_reward], [_init_callback] none other than
    [neptune_logger], and [_load_logs], [_evaluate] and [_make_video]
    none at all. *)
Theorem configuration_is_never_changed (s : state) :
  fst (snd (_on_step s))
  = with_best (best_mean_reward (fst (snd (_on_step s)))) (fst s)
  /\ fst (snd (_init_callback s))
     = with_logger (neptune_logger (fst (snd (_init_callback s)))) (fst s)
  /\ fst (snd (_load_logs s)) = fst s
  /\ fst (snd (_evaluate s)) = fst s
  /\ fst (snd (_make_video s)) = fst s.
Proof.
  split; [apply on_step_changes_only_best|].
  split; [apply init_callback_changes_only_logger|].
  split; [apply keeps_self_load_logs|].
  split; [apply keeps_self_evaluate | apply keeps_self_make_video].
Qed.

(** ** [_init_callback], again *)

Lemma fold_lines (lines : list (string * string)) (text : string) :
  fold_left (fun x y => x ++ y ++ Py.nl)
            (map (fun kv => fst kv ++ ": " ++ snd kv) lines) text
  = text ++ param_lines lines.
Proof.
  revert text. induction lines as [|kv lines IH]; intros text; simpl.
  - clear. induction text as [|c text IH]; simpl; [reflexivity|].
    now rewrite <- IH.
  - rewrite IH. unfold param_line. now rewrite !append_assoc.
Qed.

(** The hyperparameter text exists exactly for a non-empty mapping (an
    empty one gives a [TypeError]) and is the line [key: value] of the
    first entry without a line break, directly followed by the lines of
    the other entries, each ended by a line break; in a world where only
    its upload may fail and does not, [_init_callback] uploads this text
    as ["Model Params"]. *)
Theorem model_params_text_shape (kv : string * string)
    (others : list (string * string)) :
  model_params_text (kv :: others)
  = Ok (param_line kv ++ param_lines others)
  /\ (forall d, model_params_text d = Raise TypeError <-> d = [])
  /\ (forall self w,
         model_parameter self = kv :: others ->
         only_model_params_may_fail w ->
         faults w (neptune_log_text "Model Params"
                     (param_line kv ++ param_lines others)) = false ->
         In (neptune_log_text "Model Params"
               (param_line kv ++ param_lines others))
            (new_calls w (snd (snd (_init_callback (self, w)))))).
Proof.
  assert (Ht : model_params_text (kv :: others)
               = Ok (param_line kv ++ param_lines others)).
  { unfold model_params_text. cbn [map reduce]. now rewrite fold_lines. }
  split; [exact Ht|]. split.
  - intros d. split.
    + destruct d; [reflexivity | discriminate].
    + now intros ->.
  - intros self w Hd H Hf. rewrite (init_callback_run _ _ H).
    cbn [snd]. rewrite new_calls_after_init. unfold init_calls, model_params_upload.
    rewrite Hd, Ht, Hf. cbn [app]. do 3 right. now left.
Qed.

Lemma model_params_text_shape_witness :
  In (neptune_log_text "Model Params" ("lr: 0.1" ++ "gamma: 0.99" ++ Py.nl))
     (new_calls (Sample.quiet None)
        (snd (snd (_init_callback (Sample.described, Sample.quiet None))))).
Proof.
  apply (proj2 (proj2 (model_params_text_shape
                         ("lr", "0.1") [("gamma", "0.99")]))
           Sample.described (Sample.quiet None)).
  - reflexivity.
  - intros c H. discriminate.
  - reflexivity.
Defined.



(** When a completed [_init_callback] had to create the log directory,
    the directory is there and empty: [_load_logs] then returns "no data"
    instead of raising [FileNotFoundError]. *)
Theorem load_logs_after_init (self : NeptuneCallback) (w : world) :
  only_model_params_may_fail w ->
  fs w (log_dir self) = None ->
  fst (_load_logs (snd (_init_callback (self, w)))) = Ok None.
Proof.
  intros H E. rewrite (init_callback_run _ _ H).
  unfold after_init. cbn [snd]. rewrite E.
  rewrite (load_logs_run _ _ []); [reflexivity|].
  cbn [log_dir with_logger fs make_dir]. now rewrite String.eqb_refl.
Qed.

Lemma load_logs_after_init_witness :
  fst (_load_logs
         (snd (_init_callback (Sample.described, Sample.upload_fails None))))
  = Ok None.
Proof.
  apply (load_logs_after_init Sample.described (Sample.upload_fails None)
           (upload_fails_only_upload None)).
  reflexivity.
Defined.

(** ** The constructor and the hook together *)

(** Evaluating again with the same outcome changes nothing: when an
    [_on_step] has run its evaluation in a world where no call fails, a
    later [_on_step] whose evaluation returns the same episodes, again
    with no call failing, saves no model and leaves [best_mean_reward] as
    it is. *)
Theorem repeated_evaluation_saves_nothing (self : NeptuneCallback)
    (w later : world) (n : Z) :
  no_faults w ->
  no_faults later ->
  policy_eval later = policy_eval w ->
  logs_freq self <> 0%Z ->
  evaluate_freq self <> 0%Z ->
  (n_calls self mod logs_freq self <> 0)%Z ->
  (n_calls self mod evaluate_freq self = 0)%Z ->
  (n mod logs_freq self <> 0)%Z ->
  (n mod evaluate_freq self = 0)%Z ->
  let first := snd (_on_step (self, w)) in
  let second := snd (_on_step (set_n_calls n (fst first), later)) in
  filter is_model_save (new_calls later (snd second)) = []
  /\ best_mean_reward (fst second) = best_mean_reward (fst first).
Proof.
  intros H Hq Hp Hl He Hml Hme Hnl Hne first second.
  assert (Hf : first = after_evaluation self w).
  { subst first. rewrite on_step_skip_logs by assumption.
    rewrite on_step_evaluate_run by assumption. now rewrite Hme. }
  assert (Hkeep : logs_freq (fst first) = logs_freq self
                  /\ evaluate_freq (fst first) = evaluate_freq self).
  { rewrite Hf. unfold after_evaluation. cbn [fst].
    now destruct (improves self w). }
  destruct Hkeep as [Hkl Hke].
  assert (Hno : improves (set_n_calls n (fst first)) later = false).
  { unfold improves. cbn [best_mean_reward set_n_calls]. rewrite Hp, Hf.
    unfold after_evaluation. cbn [fst].
    destruct (improves self w) eqn:Hi.
    - cbn [best_mean_reward with_best]. apply float_gt_irrefl.
    - exact Hi. }
  assert (Hs : second
               = after_evaluation (set_n_calls n (fst first)) later).
  { subst second. rewrite on_step_skip_logs
      by (cbn [logs_freq n_calls set_n_calls]; rewrite ?Hkl; assumption).
    rewrite on_step_evaluate_run
      by (cbn [evaluate_freq set_n_calls]; rewrite ?Hke; assumption).
    cbn [evaluate_freq n_calls set_n_calls]. now rewrite Hke, Hne. }
  rewrite Hs. unfold after_evaluation. cbn [fst snd].
  rewrite new_calls_add_trace, Hno.
  split; [now apply no_save_without_improvement | reflexivity].
Qed.

Lemma repeated_evaluation_saves_nothing_witness :
  filter is_model_save
    (new_calls (Sample.quiet (Some []))
       (snd (snd (_on_step
                    (set_n_calls 20000
                       (fst (snd (_on_step
                                    (set_n_calls 10000
                                       (__init__ "PPO" "Hopper-v2" "team"
                                                 "mujoco" "run-1" "logs"
                                                 None None None
                                                 3 10000 1000 false),
                                     Sample.quiet None)))),
                     Sample.quiet (Some []))))))
  = [].
Proof.
  refine (proj1 (repeated_evaluation_saves_nothing
                   (set_n_calls 10000
                      (__init__ "PPO" "Hopper-v2" "team" "mujoco" "run-1"
                                "logs" None None None 3 10000 1000 false))
                   (Sample.quiet None) (Sample.quiet (Some [])) 20000
                   (fun c => eq_refl) (fun c => eq_refl) eq_refl
                   _ _ _ eq_refl _ eq_refl));
    discriminate.
Defined.
